(** * Cloud-Hypervisor domain manager (src/ch/ch_domain.c)

    A shallow embedding of the domain manager functions of the
    Cloud-Hypervisor driver: the definition validation callbacks and
    their registration table, the vCPU thread-info refresh and the
    machine-name lookup.  C integers are [Z], C arrays with their
    length field are lists, nullable pointers are [option], and the
    thread-local error object and the log are threaded through a small
    state monad whose computations may also stop on a memory fault. *)

From Stdlib Require Import ZArith List Lia.
From stdpp Require Import base option list strings pretty.

Local Open Scope Z_scope.
Local Open Scope string_scope.

(** ** Error reporting and logging *)

(** The error codes this file raises itself (virerror.h). *)
Inductive virErrorNumber : Set :=
  | VIR_ERR_INTERNAL_ERROR
  | VIR_ERR_NO_DOMAIN
  | VIR_ERR_CONFIG_UNSUPPORTED
  | VIR_ERR_OTHER (code : Z).

Global Instance virErrorNumber_eq_dec : EqDecision virErrorNumber.
Proof. solve_decision. Defined.

Record virError : Set := mkError {
  err_code : virErrorNumber;
  err_message : string
}.

Inductive virLogPriority : Set :=
  | VIR_LOG_DEBUG
  | VIR_LOG_INFO
  | VIR_LOG_WARN
  | VIR_LOG_ERROR.

(** What a caller can observe besides the return value: the last error
    of the thread (set by virReportError, cleared by virResetLastError)
    and the messages handed to the logger (VIR_WARN, VIR_ERROR). *)
Record virThreadState : Set := mkThreadState {
  lastError : option virError;
  logged : list (virLogPriority * string)
}.

Definition virThreadStateInit : virThreadState :=
  {| lastError := None; logged := [] |}.

(** A C access that has no defined result. *)
Inductive Fault : Set :=
  | NullDereference
  | DivisionByZero.

Inductive Outcome (A : Type) : Type :=
  | Returned (st : virThreadState) (a : A)
  | Crashed (f : Fault).
Arguments Returned {A} st a.
Arguments Crashed {A} f.

Definition M (A : Type) : Type := virThreadState -> Outcome A.

Global Instance M_ret : MRet M := fun A a st => Returned st a.
Global Instance M_bind : MBind M := fun A B f m st =>
  match m st with
  | Returned st' a => f a st'
  | Crashed flt => Crashed flt
  end.

Definition crash {A} (f : Fault) : M A := fun _ => Crashed f.

Definition virReportError (code : virErrorNumber) (msg : string) : M unit :=
  fun st => Returned {| lastError := Some (mkError code msg);
                        logged := logged st |} tt.

Definition virSetError (e : virError) : M unit :=
  fun st => Returned {| lastError := Some e; logged := logged st |} tt.

Definition virResetLastError : M unit :=
  fun st => Returned {| lastError := None; logged := logged st |} tt.

Definition virLogMessage (p : virLogPriority) (msg : string) : M unit :=
  fun st => Returned {| lastError := lastError st;
                        logged := logged st ++ [(p, msg)] |} tt.

Definition VIR_WARN : string -> M unit := virLogMessage VIR_LOG_WARN.
Definition VIR_ERROR : string -> M unit := virLogMessage VIR_LOG_ERROR.

(** A callee outside this file that reports its own error and signals
    failure through its return value. *)
Definition Reported (A : Type) : Type := virError + A.

Definition call {A} (r : Reported A) : M (option A) :=
  match r with
  | inl e => _ ← virSetError e; mret None
  | inr a => mret (Some a)
  end.

(** Observers of an outcome. *)
Definition returnValue {A} (o : Outcome A) : option A :=
  match o with Returned _ a => Some a | Crashed _ => None end.

Definition finalState {A} (o : Outcome A) : option virThreadState :=
  match o with Returned st _ => Some st | Crashed _ => None end.

Definition reportedCode {A} (o : Outcome A) : option virErrorNumber :=
  match o with
  | Returned st _ => err_code <$> lastError st
  | Crashed _ => None
  end.

Definition reportedMessage {A} (o : Outcome A) : option string :=
  match o with
  | Returned st _ => err_message <$> lastError st
  | Crashed _ => None
  end.

(** ** Data model (the fields of the libvirt structures this file reads) *)

(** unsigned wrap-around of the C integer types involved *)
Definition to_uint (z : Z) : Z := z mod 2 ^ 32.
Definition to_size_t (z : Z) : Z := z mod 2 ^ 64.
Definition to_ull (z : Z) : Z := z mod 2 ^ 64.
(** a size_t printed through the signed conversion "%ld" *)
Definition as_long (z : Z) : Z :=
  if decide (to_size_t z < 2 ^ 63) then to_size_t z else to_size_t z - 2 ^ 64.

Inductive virCPUMode : Set :=
  | VIR_CPU_MODE_CUSTOM
  | VIR_CPU_MODE_HOST_MODEL
  | VIR_CPU_MODE_HOST_PASSTHROUGH
  | VIR_CPU_MODE_MAXIMUM.

Global Instance virCPUMode_eq_dec : EqDecision virCPUMode.
Proof. solve_decision. Defined.

Record virCPUDef : Set := mkCPUDef { mode : virCPUMode }.

Record virDomainHugePage : Set := mkHugePage { size : Z }.

(** [nhugepages] is the length of [hugepages]. *)
Record virDomainMemtune : Set := mkMemtune {
  initial_memory : Z;
  hugepages : list virDomainHugePage;
  nosharepages : bool
}.

Definition nhugepages (mem : virDomainMemtune) : Z :=
  Z.of_nat (length (hugepages mem)).

Inductive virDomainChrType : Set :=
  | VIR_DOMAIN_CHR_TYPE_NULL
  | VIR_DOMAIN_CHR_TYPE_VC
  | VIR_DOMAIN_CHR_TYPE_PTY
  | VIR_DOMAIN_CHR_TYPE_DEV
  | VIR_DOMAIN_CHR_TYPE_FILE
  | VIR_DOMAIN_CHR_TYPE_PIPE
  | VIR_DOMAIN_CHR_TYPE_STDIO
  | VIR_DOMAIN_CHR_TYPE_UDP
  | VIR_DOMAIN_CHR_TYPE_TCP
  | VIR_DOMAIN_CHR_TYPE_UNIX
  | VIR_DOMAIN_CHR_TYPE_SPICEVMC
  | VIR_DOMAIN_CHR_TYPE_SPICEPORT
  | VIR_DOMAIN_CHR_TYPE_NMDM
  | VIR_DOMAIN_CHR_TYPE_QEMU_VDAGENT
  | VIR_DOMAIN_CHR_TYPE_DBUS.

Global Instance virDomainChrType_eq_dec : EqDecision virDomainChrType.
Proof. solve_decision. Defined.

Record virDomainChrSourceDef : Set := mkChrSource { chr_type : virDomainChrType }.
Record virDomainChrDef : Set := mkChr { source : virDomainChrSourceDef }.

(** The device types, as the switch of [chValidateDomainDeviceDef]
    enumerates them. *)
Inductive virDomainDeviceType : Set :=
  | VIR_DOMAIN_DEVICE_NONE
  | VIR_DOMAIN_DEVICE_DISK
  | VIR_DOMAIN_DEVICE_LEASE
  | VIR_DOMAIN_DEVICE_FS
  | VIR_DOMAIN_DEVICE_NET
  | VIR_DOMAIN_DEVICE_INPUT
  | VIR_DOMAIN_DEVICE_SOUND
  | VIR_DOMAIN_DEVICE_VIDEO
  | VIR_DOMAIN_DEVICE_HOSTDEV
  | VIR_DOMAIN_DEVICE_WATCHDOG
  | VIR_DOMAIN_DEVICE_CONTROLLER
  | VIR_DOMAIN_DEVICE_GRAPHICS
  | VIR_DOMAIN_DEVICE_HUB
  | VIR_DOMAIN_DEVICE_REDIRDEV
  | VIR_DOMAIN_DEVICE_SMARTCARD
  | VIR_DOMAIN_DEVICE_CHR
  | VIR_DOMAIN_DEVICE_MEMBALLOON
  | VIR_DOMAIN_DEVICE_NVRAM
  | VIR_DOMAIN_DEVICE_RNG
  | VIR_DOMAIN_DEVICE_SHMEM
  | VIR_DOMAIN_DEVICE_TPM
  | VIR_DOMAIN_DEVICE_PANIC
  | VIR_DOMAIN_DEVICE_MEMORY
  | VIR_DOMAIN_DEVICE_IOMMU
  | VIR_DOMAIN_DEVICE_VSOCK
  | VIR_DOMAIN_DEVICE_AUDIO
  | VIR_DOMAIN_DEVICE_CRYPTO
  | VIR_DOMAIN_DEVICE_LAST.

Global Instance virDomainDeviceType_eq_dec : EqDecision virDomainDeviceType.
Proof. solve_decision. Defined.

Record virDomainDeviceDef : Set := mkDevice { dev_type : virDomainDeviceType }.

(** The driver-private part of a vCPU slot: the OS thread backing it. *)
Record virCHDomainVcpuPrivate : Set := mkVcpuPrivate { tid : Z }.

Record virDomainVcpuDef : Set := mkVcpu {
  online : bool;
  privateData : virCHDomainVcpuPrivate
}.

Record virDomainOSDef : Set := mkOS { os_type : Z; os_arch : Z }.

(** [nconsoles], [nserials] and [maxvcpus] are the lengths of
    [consoles], [serials] and [vcpus]; [devices] is the sequence of
    declared devices the device callback is run on. *)
Record virDomainDef : Set := mkDef {
  id : Z;
  name : string;
  emulator : option string;
  os : virDomainOSDef;
  virtType : Z;
  cpu : option virCPUDef;
  mem : virDomainMemtune;
  vcpus : list virDomainVcpuDef;
  consoles : list virDomainChrDef;
  serials : list virDomainChrDef;
  devices : list virDomainDeviceDef
}.

Definition nconsoles (def : virDomainDef) : Z := Z.of_nat (length (consoles def)).
Definition nserials (def : virDomainDef) : Z := Z.of_nat (length (serials def)).

Record virCapsHost : Set := mkCapsHost { pagesSize : list Z }.
Record virCaps : Set := mkCaps { host : virCapsHost }.

Definition nPagesSize (h : virCapsHost) : Z := Z.of_nat (length (pagesSize h)).

Record virCHDriver : Set := mkDriver { privileged : bool }.

Record virCHMonitor : Set := mkMonitor { mon_handle : Z }.

Record virCHDomainObjPrivate : Set := mkPrivate {
  monitor : option virCHMonitor;
  driver : virCHDriver;
  machineName : option string
}.

Record virDomainObj : Set := mkDomainObj {
  pid : Z;
  persistent : bool;
  def : virDomainDef;
  vm_privateData : virCHDomainObjPrivate
}.

(** One thread reported by the monitor: a tagged union. *)
Record virCHMonitorCPUInfo : Set := mkCPUInfo {
  cpuid : Z;
  cpu_tid : Z
}.

Inductive virCHMonitorThreadInfo : Set :=
  | virCHThreadTypeEmulator (emu_tid : Z)
  | virCHThreadTypeVcpu (vcpuInfo : virCHMonitorCPUInfo)
  | virCHThreadTypeIO (io_tid : Z).

(** ** What this file calls but does not define *)

(** The collaborators of ch_domain.c that live in other files: glib,
    the capability cache, the NUMA page query, the monitor, systemd and
    the generic domain-driver helpers.  They are taken as an interface;
    every result below holds for any implementation of it. *)
Class Externals : Type := {
  (** NULL when the program is not in the search path *)
  g_find_program_in_path : string -> option string;
  (** the cached host capabilities, or a reported failure *)
  virCHDriverGetCapabilities : virCHDriver -> bool -> Reported virCaps;
  (** os type, architecture and virtualization type are supported *)
  virCapabilitiesDomainSupported : virCaps -> Z -> Z -> Z -> Reported unit;
  (** node, page size, huge-page sum: the number of free pages *)
  virNumaGetPageInfo : Z -> Z -> Z -> Reported Z;
  (** the thread array whose length the monitor returns *)
  virCHMonitorGetThreadInfo :
    option virCHMonitor -> bool -> list virCHMonitorThreadInfo;
  virSystemdGetMachineNameByPID : Z -> Reported string;
  (** Modelled from the spec: virDomainDriverGenerateMachineName is
      defined outside ch_domain.c; section 4.4 describes it as the
      deterministic synthesis of a name from a driver prefix, the
      numeric id, the logical name and the privilege flag, so it is a
      total function of those arguments (and of the unused root). *)
  virDomainDriverGenerateMachineName :
    string -> option string -> Z -> string -> bool -> string;
  virDomainDeviceTypeToString : virDomainDeviceType -> string;
  (** the integer an enumerator stands for, as "%d" prints it *)
  virDomainDeviceTypeValue : virDomainDeviceType -> Z;
  (** domain_conf.h *)
  VIR_DOMAIN_DEF_FEATURE_NO_STUB_CONSOLE : Z;
  (** ch_conf.h: the default binary name of the hypervisor *)
  CH_CMD : string
}.

(** the double-quote character of a C string literal *)
Definition dquote : string := String (Ascii.ascii_of_nat 34) EmptyString.

(** Modelled from the spec: virDomainDefGetVcpusMax is defined in
    domain_conf.c, outside this file; it is the maximum configured
    vCPU count, the number of declared vCPU slots, as an unsigned int. *)
Definition virDomainDefGetVcpusMax (def : virDomainDef) : Z :=
  to_uint (Z.of_nat (length (vcpus def))).

(** Modelled from the spec: virDomainDefGetVcpu is defined in
    domain_conf.c, outside this file; by section 3 a declared vCPU slot
    is addressable by its logical CPU index, so the lookup yields the
    slot at that (unsigned) index, and no slot, a NULL pointer, for an
    index that is not below the number of declared slots. *)
Definition virDomainDefGetVcpu (def : virDomainDef) (vcpu : Z)
  : option virDomainVcpuDef :=
  if decide (Z.of_nat (length (vcpus def)) <= to_uint vcpu) then None
  else vcpus def !! Z.to_nat (to_uint vcpu).

(** Modelled from the spec: virDomainDefGetMemoryInitial is defined in
    domain_conf.c, outside this file; it is the initial memory of the
    definition, in the unit the huge-page sizes are given in. *)
Definition virDomainDefGetMemoryInitial (def : virDomainDef) : Z :=
  initial_memory (mem def).

(** Field updates written through a pointer in the C code. *)
Definition set_emulator (def : virDomainDef) (e : option string) : virDomainDef :=
  {| id := id def; name := name def; emulator := e; os := os def;
     virtType := virtType def; cpu := cpu def; mem := mem def;
     vcpus := vcpus def; consoles := consoles def; serials := serials def;
     devices := devices def |}.

Definition set_vcpus (def : virDomainDef) (vs : list virDomainVcpuDef) : virDomainDef :=
  {| id := id def; name := name def; emulator := emulator def; os := os def;
     virtType := virtType def; cpu := cpu def; mem := mem def;
     vcpus := vs; consoles := consoles def; serials := serials def;
     devices := devices def |}.

Definition set_tid (vcpu : virDomainVcpuDef) (t : Z) : virDomainVcpuDef :=
  {| online := online vcpu; privateData := {| tid := t |} |}.

Definition set_def (vm : virDomainObj) (d : virDomainDef) : virDomainObj :=
  {| pid := pid vm; persistent := persistent vm; def := d;
     vm_privateData := vm_privateData vm |}.

(** The per-slot thread ids of a definition, slot by slot. *)
Definition vcpuTids (def : virDomainDef) : list Z :=
  (fun v => tid (privateData v)) <$> vcpus def.

Section Driver.
Context `{X : Externals}.

(** ** Post-parse callbacks *)

Definition virCHDomainDefPostParseBasic (def : virDomainDef) (opaque : virCHDriver)
  : M (Z * virDomainDef) :=
  match emulator def with
  | Some _ => mret (0, def)
  | None =>
      match g_find_program_in_path CH_CMD with
      | None =>
          _ ← virReportError VIR_ERR_CONFIG_UNSUPPORTED
                "No emulator found for cloud-hypervisor";
          mret (1, set_emulator def None)
      | Some path => mret (0, set_emulator def (Some path))
      end
  end.

Definition virCHDomainDefPostParse (def : virDomainDef) (opaque : virCHDriver)
  : M Z :=
  caps ← call (virCHDriverGetCapabilities opaque false);
  match caps with
  | None => mret (-1)
  | Some caps =>
      ok ← call (virCapabilitiesDomainSupported caps (os_type (os def))
                   (os_arch (os def)) (virtType def));
      match ok with
      | None => mret (-1)
      | Some _ => mret 0
      end
  end.

(** ** Device validation *)

(** virerror.h: an enumeration value outside its range is an internal
    error. *)
Definition virReportEnumRangeError (typname : string) (value : Z) : M unit :=
  virReportError VIR_ERR_INTERNAL_ERROR
    ("Unexpected enum value " +:+ pretty value +:+ " for " +:+ typname).

Definition chrTypeUnsupported (chrs : list virDomainChrDef) : bool :=
  match chrs with
  | [] => false
  | c :: _ =>
      bool_decide (chr_type (source c) ≠ VIR_DOMAIN_CHR_TYPE_PTY)
      && bool_decide (chr_type (source c) ≠ VIR_DOMAIN_CHR_TYPE_UNIX)
  end.

Definition chValidateDomainDeviceDef (dev : virDomainDeviceDef) (def : virDomainDef)
  : M Z :=
  let after_switch : M Z :=
    if decide (nconsoles def > 1) then
      _ ← virReportError VIR_ERR_INTERNAL_ERROR
            "Only a single console can be configured for this domain";
      mret (-1)
    else if decide (nserials def > 1) then
      _ ← virReportError VIR_ERR_INTERNAL_ERROR
            "Only a single serial can be configured for this domain";
      mret (-1)
    else if chrTypeUnsupported (consoles def) then
      _ ← virReportError VIR_ERR_INTERNAL_ERROR
            "Console works only in UNIX / PTY modes";
      mret (-1)
    else if chrTypeUnsupported (serials def) then
      _ ← virReportError VIR_ERR_INTERNAL_ERROR
            "Serial works only in UNIX/PTY modes";
      mret (-1)
    else mret 0 in
  match dev_type dev with
  | VIR_DOMAIN_DEVICE_DISK
  | VIR_DOMAIN_DEVICE_NET
  | VIR_DOMAIN_DEVICE_MEMORY
  | VIR_DOMAIN_DEVICE_VSOCK
  | VIR_DOMAIN_DEVICE_CONTROLLER
  | VIR_DOMAIN_DEVICE_CHR => after_switch
  | VIR_DOMAIN_DEVICE_LEASE
  | VIR_DOMAIN_DEVICE_FS
  | VIR_DOMAIN_DEVICE_INPUT
  | VIR_DOMAIN_DEVICE_SOUND
  | VIR_DOMAIN_DEVICE_VIDEO
  | VIR_DOMAIN_DEVICE_HOSTDEV
  | VIR_DOMAIN_DEVICE_WATCHDOG
  | VIR_DOMAIN_DEVICE_GRAPHICS
  | VIR_DOMAIN_DEVICE_HUB
  | VIR_DOMAIN_DEVICE_REDIRDEV
  | VIR_DOMAIN_DEVICE_SMARTCARD
  | VIR_DOMAIN_DEVICE_MEMBALLOON
  | VIR_DOMAIN_DEVICE_NVRAM
  | VIR_DOMAIN_DEVICE_RNG
  | VIR_DOMAIN_DEVICE_SHMEM
  | VIR_DOMAIN_DEVICE_TPM
  | VIR_DOMAIN_DEVICE_PANIC
  | VIR_DOMAIN_DEVICE_IOMMU
  | VIR_DOMAIN_DEVICE_AUDIO
  | VIR_DOMAIN_DEVICE_CRYPTO =>
      _ ← virReportError VIR_ERR_CONFIG_UNSUPPORTED
            ("Cloud-Hypervisor doesn't support '"
             +:+ virDomainDeviceTypeToString (dev_type dev) +:+ "' device");
      mret (-1)
  | VIR_DOMAIN_DEVICE_NONE =>
      _ ← virReportError VIR_ERR_INTERNAL_ERROR
            "unexpected VIR_DOMAIN_DEVICE_NONE";
      mret (-1)
  | VIR_DOMAIN_DEVICE_LAST =>
      _ ← virReportEnumRangeError "virDomainDeviceType"
            (virDomainDeviceTypeValue (dev_type dev));
      mret (-1)
  end.

(** ** Thread-info refresh *)

Definition virCHDomainGetMonitor (vm : virDomainObj) : option virCHMonitor :=
  monitor (vm_privateData vm).

(** The body of the for loop, over the remaining entries of [info]:
    [def] is the definition as written so far, [ncpus] the counter. *)
Fixpoint refreshThreads (info : list virCHMonitorThreadInfo)
    (def : virDomainDef) (ncpus : Z) : M (virDomainDef * Z) :=
  match info with
  | [] => mret (def, ncpus)
  | virCHThreadTypeVcpu vcpuInfo :: rest =>
      match virDomainDefGetVcpu def (cpuid vcpuInfo) with
      | None => crash NullDereference
      | Some vcpu =>
          refreshThreads rest
            (set_vcpus def
               (<[Z.to_nat (to_uint (cpuid vcpuInfo)) :=
                    set_tid vcpu (cpu_tid vcpuInfo)]> (vcpus def)))
            (to_size_t (ncpus + 1))
      end
  | _ :: rest => refreshThreads rest def ncpus
  end.

Definition virCHDomainRefreshThreadInfo (vm : virDomainObj)
  : M (Z * virDomainObj) :=
  let maxvcpus := virDomainDefGetVcpusMax (def vm) in
  let info := virCHMonitorGetThreadInfo (virCHDomainGetMonitor vm) true in
  r ← refreshThreads info (def vm) 0;
  _ ← (if decide (snd r ≠ maxvcpus) then
         VIR_WARN ("Mismatch in the number of cpus, expected: "
                   +:+ pretty (as_long maxvcpus) +:+ ", actual: "
                   +:+ pretty (as_long (snd r)))
       else mret tt);
  mret (0, set_def vm (fst r)).

(** ** Domain validation *)

Definition chValidateDomainDef (def : virDomainDef) (opaque : virCHDriver) : M Z :=
  match cpu def with
  | Some c =>
      if decide (mode c ≠ VIR_CPU_MODE_HOST_PASSTHROUGH) then
        _ ← VIR_ERROR
              (dquote +:+ "host-passthrough" +:+ dquote
               +:+ " is the only mode supported by CH driver");
        mret (-1)
      else mret 0
  | None => mret 0
  end.

(** ** Huge-page admission *)

(** The search loop over [caps->host.pagesSize]: the index at which the
    loop stops, which is the array length when no entry matches. *)
Fixpoint findPageSize (hugepage_size : Z) (pages : list Z) (i : Z) : Z :=
  match pages with
  | [] => i
  | p :: rest =>
      if decide (hugepage_size = p) then i
      else findPageSize hugepage_size rest (i + 1)
  end.

Definition virCHDomainDefValidateMemory (def : virDomainDef) (caps : virCaps)
  : M Z :=
  let mem := mem def in
  if decide (nhugepages mem = 0) then mret 0
  else if decide (nhugepages mem > 1) then
    _ ← virReportError VIR_ERR_CONFIG_UNSUPPORTED
          "Multiple hugepages config is not supported in CH Driver";
    mret (-1)
  else if nosharepages mem then
    _ ← virReportError VIR_ERR_CONFIG_UNSUPPORTED
          "Disabling shared memory doesn't work with CH";
    mret (-1)
  else
    match hugepages mem with
    | [] => crash NullDereference
    | hp :: _ =>
        let hugepage_size := size hp in
        let i := findPageSize hugepage_size (pagesSize (host caps)) 0 in
        if decide (i = nPagesSize (host caps)) then
          _ ← virReportError VIR_ERR_CONFIG_UNSUPPORTED
                ("Host does not suppot HugePage size "
                 +:+ pretty hugepage_size +:+ " B");
          mret (-1)
        else
          page_free ← call (virNumaGetPageInfo (-1) hugepage_size 0);
          match page_free with
          | None => mret (-1)
          | Some page_free =>
              let total_memory := virDomainDefGetMemoryInitial def in
              if decide (hugepage_size = 0) then crash DivisionByZero
              else
                let pages_needed := total_memory / hugepage_size in
                if decide (pages_needed > page_free) then
                  _ ← virReportError VIR_ERR_CONFIG_UNSUPPORTED
                        ("Host does not have enough free HugePages of size "
                         +:+ pretty hugepage_size +:+ " B");
                  mret (-1)
                else mret 0
          end
    end.

Definition virCHDomainDefValidate (def : virDomainDef) (opaque : virCHDriver)
  : M Z :=
  caps ← call (virCHDriverGetCapabilities opaque false);
  match caps with
  | None => mret (-1)
  | Some caps =>
      r ← virCHDomainDefValidateMemory def caps;
      if decide (r < 0) then mret (-1) else mret 0
  end.

(** ** The callback table *)

Record virDomainDefParserConfig : Type := mkParserConfig {
  domainPostParseBasicCallback :
    option (virDomainDef -> virCHDriver -> M (Z * virDomainDef));
  domainPostParseCallback : option (virDomainDef -> virCHDriver -> M Z);
  domainValidateCallback : option (virDomainDef -> virCHDriver -> M Z);
  deviceValidateCallback : option (virDomainDeviceDef -> virDomainDef -> M Z);
  features : Z
}.

(** One designated initializer of the table. *)
Inductive Designator : Type :=
  | dot_domainPostParseBasicCallback
      (f : virDomainDef -> virCHDriver -> M (Z * virDomainDef))
  | dot_domainPostParseCallback (f : virDomainDef -> virCHDriver -> M Z)
  | dot_domainValidateCallback (f : virDomainDef -> virCHDriver -> M Z)
  | dot_deviceValidateCallback (f : virDomainDeviceDef -> virDomainDef -> M Z)
  | dot_features (v : Z).

(** Members without an initializer are zero (NULL). *)
Definition zeroParserConfig : virDomainDefParserConfig :=
  {| domainPostParseBasicCallback := None; domainPostParseCallback := None;
     domainValidateCallback := None; deviceValidateCallback := None;
     features := 0 |}.

(** Initializers take effect in list order; one that names a member
    already initialized replaces the earlier value. *)
Definition initMember (c : virDomainDefParserConfig) (d : Designator)
  : virDomainDefParserConfig :=
  match d with
  | dot_domainPostParseBasicCallback f =>
      {| domainPostParseBasicCallback := Some f;
         domainPostParseCallback := domainPostParseCallback c;
         domainValidateCallback := domainValidateCallback c;
         deviceValidateCallback := deviceValidateCallback c;
         features := features c |}
  | dot_domainPostParseCallback f =>
      {| domainPostParseBasicCallback := domainPostParseBasicCallback c;
         domainPostParseCallback := Some f;
         domainValidateCallback := domainValidateCallback c;
         deviceValidateCallback := deviceValidateCallback c;
         features := features c |}
  | dot_domainValidateCallback f =>
      {| domainPostParseBasicCallback := domainPostParseBasicCallback c;
         domainPostParseCallback := domainPostParseCallback c;
         domainValidateCallback := Some f;
         deviceValidateCallback := deviceValidateCallback c;
         features := features c |}
  | dot_deviceValidateCallback f =>
      {| domainPostParseBasicCallback := domainPostParseBasicCallback c;
         domainPostParseCallback := domainPostParseCallback c;
         domainValidateCallback := domainValidateCallback c;
         deviceValidateCallback := Some f;
         features := features c |}
  | dot_features v =>
      {| domainPostParseBasicCallback := domainPostParseBasicCallback c;
         domainPostParseCallback := domainPostParseCallback c;
         domainValidateCallback := domainValidateCallback c;
         deviceValidateCallback := deviceValidateCallback c;
         features := v |}
  end.

Definition virCHDriverDomainDefParserConfig : virDomainDefParserConfig :=
  fold_left initMember
    [ dot_domainPostParseBasicCallback virCHDomainDefPostParseBasic;
      dot_domainPostParseCallback virCHDomainDefPostParse;
      dot_domainValidateCallback virCHDomainDefValidate;
      dot_deviceValidateCallback chValidateDomainDeviceDef;
      dot_domainValidateCallback chValidateDomainDef;
      dot_features VIR_DOMAIN_DEF_FEATURE_NO_STUB_CONSOLE ]
    zeroParserConfig.

(** Modelled from the spec: the code that runs the registered callbacks
    is the management layer's (domain_conf.c, not part of this file);
    sections 4.2 and 5 give its order: basic post-parse, full
    post-parse, the domain validation callback, then the device
    callback on every declared device, stopping at the first failure.
    A member left NULL is skipped. *)
Fixpoint validateDevices (cb : virDomainDeviceDef -> virDomainDef -> M Z)
    (devs : list virDomainDeviceDef) (def : virDomainDef) : M Z :=
  match devs with
  | [] => mret 0
  | dev :: rest =>
      r ← cb dev def;
      if decide (r < 0) then mret (-1) else validateDevices cb rest def
  end.

(** Modelled from the spec: the staged run of section 4.2 over a
    callback table (see [validateDevices]). *)
Definition runValidationPipeline (config : virDomainDefParserConfig)
    (def : virDomainDef) (opaque : virCHDriver) : M (Z * virDomainDef) :=
  r1 ← match domainPostParseBasicCallback config with
       | Some cb => cb def opaque
       | None => mret (0, def)
       end;
  if decide (fst r1 ≠ 0) then mret (-1, snd r1) else
  let def := snd r1 in
  r2 ← match domainPostParseCallback config with
       | Some cb => cb def opaque
       | None => mret 0
       end;
  if decide (r2 < 0) then mret (-1, def) else
  r3 ← match domainValidateCallback config with
       | Some cb => cb def opaque
       | None => mret 0
       end;
  if decide (r3 < 0) then mret (-1, def) else
  r4 ← match deviceValidateCallback config with
       | Some cb => validateDevices cb (devices def) def
       | None => mret 0
       end;
  if decide (r4 < 0) then mret (-1, def) else mret (0, def).

(** ** Read accessors and the machine name *)

Definition virCHDomainGetVcpuPid (vm : virDomainObj) (vcpuid : Z) : M Z :=
  match virDomainDefGetVcpu (def vm) vcpuid with
  | None => crash NullDereference
  | Some vcpu => mret (tid (privateData vcpu))
  end.

(** The for loop of [virCHDomainHasVcpuPids] from index [i] on, with
    [remaining] iterations left before [i] reaches maxvcpus. *)
Fixpoint hasVcpuPidsFrom (def : virDomainDef) (remaining : nat) (i : Z)
  : M bool :=
  match remaining with
  | O => mret false
  | S k =>
      match virDomainDefGetVcpu def i with
      | None => crash NullDereference
      | Some vcpu =>
          if decide (tid (privateData vcpu) > 0) then mret true
          else hasVcpuPidsFrom def k (i + 1)
      end
  end.

Definition virCHDomainHasVcpuPids (vm : virDomainObj) : M bool :=
  let maxvcpus := virDomainDefGetVcpusMax (def vm) in
  hasVcpuPidsFrom (def vm) (Z.to_nat maxvcpus) 0.

Definition virCHDomainGetMachineName (vm : virDomainObj) : M string :=
  let priv := vm_privateData vm in
  let driver := driver priv in
  ret ← (if decide (pid vm ≠ 0) then
           ret ← call (virSystemdGetMachineNameByPID (pid vm));
           _ ← (if ret is None then virResetLastError else mret tt);
           mret ret
         else mret None);
  match ret with
  | Some machine => mret machine
  | None =>
      mret (virDomainDriverGenerateMachineName "ch" None (id (def vm))
              (name (def vm)) (privileged driver))
  end.

End Driver.

(** ** A concrete host, for evaluating the code on examples *)

Definition exampleDeviceTypes : list (virDomainDeviceType * string) :=
  [ (VIR_DOMAIN_DEVICE_NONE, "none"); (VIR_DOMAIN_DEVICE_DISK, "disk");
    (VIR_DOMAIN_DEVICE_LEASE, "lease"); (VIR_DOMAIN_DEVICE_FS, "filesystem");
    (VIR_DOMAIN_DEVICE_NET, "interface"); (VIR_DOMAIN_DEVICE_INPUT, "input");
    (VIR_DOMAIN_DEVICE_SOUND, "sound"); (VIR_DOMAIN_DEVICE_VIDEO, "video");
    (VIR_DOMAIN_DEVICE_HOSTDEV, "hostdev");
    (VIR_DOMAIN_DEVICE_WATCHDOG, "watchdog");
    (VIR_DOMAIN_DEVICE_CONTROLLER, "controller");
    (VIR_DOMAIN_DEVICE_GRAPHICS, "graphics"); (VIR_DOMAIN_DEVICE_HUB, "hub");
    (VIR_DOMAIN_DEVICE_REDIRDEV, "redirdev");
    (VIR_DOMAIN_DEVICE_SMARTCARD, "smartcard"); (VIR_DOMAIN_DEVICE_CHR, "chr");
    (VIR_DOMAIN_DEVICE_MEMBALLOON, "memballoon");
    (VIR_DOMAIN_DEVICE_NVRAM, "nvram"); (VIR_DOMAIN_DEVICE_RNG, "rng");
    (VIR_DOMAIN_DEVICE_SHMEM, "shmem"); (VIR_DOMAIN_DEVICE_TPM, "tpm");
    (VIR_DOMAIN_DEVICE_PANIC, "panic"); (VIR_DOMAIN_DEVICE_MEMORY, "memory");
    (VIR_DOMAIN_DEVICE_IOMMU, "iommu"); (VIR_DOMAIN_DEVICE_VSOCK, "vsock");
    (VIR_DOMAIN_DEVICE_AUDIO, "audio"); (VIR_DOMAIN_DEVICE_CRYPTO, "crypto");
    (VIR_DOMAIN_DEVICE_LAST, "last") ].

Fixpoint exampleDeviceIndex (ty : virDomainDeviceType)
    (l : list (virDomainDeviceType * string)) (i : Z) : Z * string :=
  match l with
  | [] => (i, EmptyString)
  | (ty', s) :: rest =>
      if decide (ty = ty') then (i, s) else exampleDeviceIndex ty rest (i + 1)
  end.

(** A host with 4 KiB and 2 MiB pages, [page_free] free pages of any
    size, a monitor that reports [threads], and a systemd that knows
    the machine names in [machines] (by process id). *)
Definition exampleHost (page_free : Z) (threads : list virCHMonitorThreadInfo)
    (machines : list (Z * string)) : Externals :=
  {| g_find_program_in_path := fun prog =>
       Some ("/usr/bin/" +:+ prog);
     virCHDriverGetCapabilities := fun _ _ =>
       inr {| host := {| pagesSize := [4096; 2097152] |} |};
     virCapabilitiesDomainSupported := fun _ _ _ _ => inr tt;
     virNumaGetPageInfo := fun _ _ _ => inr page_free;
     virCHMonitorGetThreadInfo := fun _ _ => threads;
     virSystemdGetMachineNameByPID := fun p =>
       match list_find (fun e => fst e = p) machines with
       | Some (_, (_, n)) => inr n
       | None =>
           inl (mkError (VIR_ERR_OTHER 38) "no machine for this process")
       end;
     virDomainDriverGenerateMachineName := fun drivername root id name priv =>
       drivername +:+ "-" +:+ (if priv then EmptyString else "user-")
       +:+ pretty id +:+ "-" +:+ name;
     virDomainDeviceTypeToString := fun ty =>
       snd (exampleDeviceIndex ty exampleDeviceTypes 0);
     virDomainDeviceTypeValue := fun ty =>
       fst (exampleDeviceIndex ty exampleDeviceTypes 0);
     VIR_DOMAIN_DEF_FEATURE_NO_STUB_CONSOLE := 1024;
     CH_CMD := "cloud-hypervisor" |}.

Definition exampleDriver : virCHDriver := {| privileged := true |}.

Definition exampleVcpu (t : Z) : virDomainVcpuDef :=
  {| online := true; privateData := {| tid := t |} |}.

(** A guest with 204800000 units of memory (the figure of the spec's
    example), backed by the page sizes in [pages], with the CPU
    configuration [c], [n] vCPU slots without a thread yet, and the
    consoles, serials and devices given. *)
Definition exampleDef (c : option virCPUDef) (pages : list Z) (n : nat)
    (cons sers : list virDomainChrDef) (devs : list virDomainDeviceDef)
  : virDomainDef :=
  {| id := 7; name := "guest"; emulator := Some "/usr/bin/cloud-hypervisor";
     os := {| os_type := 1; os_arch := 36 |}; virtType := 2;
     cpu := c;
     mem := {| initial_memory := 204800000;
               hugepages := mkHugePage <$> pages;
               nosharepages := false |};
     vcpus := replicate n (exampleVcpu 0);
     consoles := cons; serials := sers; devices := devs |}.

Definition exampleVm (p : Z) (d : virDomainDef) : virDomainObj :=
  {| pid := p; persistent := false; def := d;
     vm_privateData := {| monitor := Some {| mon_handle := 1 |};
                          driver := exampleDriver;
                          machineName := None |} |}.

Definition pty : virDomainChrDef :=
  {| source := {| chr_type := VIR_DOMAIN_CHR_TYPE_PTY |} |}.
Definition tcp : virDomainChrDef :=
  {| source := {| chr_type := VIR_DOMAIN_CHR_TYPE_TCP |} |}.

(** ** The specification's vocabulary *)

(** The allow-list, in the words of the specification: disk, network
    interface, memory device, vsock, controller, character device. *)
Definition spec_allow_list : list virDomainDeviceType :=
  [ VIR_DOMAIN_DEVICE_DISK; VIR_DOMAIN_DEVICE_NET; VIR_DOMAIN_DEVICE_MEMORY;
    VIR_DOMAIN_DEVICE_VSOCK; VIR_DOMAIN_DEVICE_CONTROLLER;
    VIR_DOMAIN_DEVICE_CHR ].

(** The two enumerators that name no device: the zero value and the
    end marker. *)
Definition placeholderType (ty : virDomainDeviceType) : Prop :=
  ty = VIR_DOMAIN_DEVICE_NONE \/ ty = VIR_DOMAIN_DEVICE_LAST.

(** A character device whose transport the backend can use, in the
    words of the specification: pseudo-terminal or UNIX-domain socket. *)
Definition spec_transportSupported (c : virDomainChrDef) : Prop :=
  chr_type (source c) = VIR_DOMAIN_CHR_TYPE_PTY
  \/ chr_type (source c) = VIR_DOMAIN_CHR_TYPE_UNIX.

(** The console and serial constraint of the specification: at most
    one of each, each on a supported transport. *)
Definition spec_consoleSerialOk (def : virDomainDef) : Prop :=
  (length (consoles def) <= 1)%nat /\ (length (serials def) <= 1)%nat
  /\ Forall spec_transportSupported (consoles def ++ serials def).

Global Instance spec_transportSupported_dec c :
  Decision (spec_transportSupported c).
Proof. unfold spec_transportSupported. apply _. Defined.

(** A violation of the constraint, spelled out: two or more consoles,
    two or more serials, or a console or serial on another transport. *)
Definition spec_consoleSerialViolation (def : virDomainDef) : Prop :=
  (1 < length (consoles def))%nat \/ (1 < length (serials def))%nat
  \/ Exists (fun c => ¬ spec_transportSupported c)
            (consoles def ++ serials def).

(** The name the generator gives the instance: driver prefix "ch", no
    root, the numeric id, the logical name and the privilege flag. *)
Definition fallbackName `{X : Externals} (vm : virDomainObj) : string :=
  virDomainDriverGenerateMachineName "ch" None (id (def vm)) (name (def vm))
    (privileged (driver (vm_privateData vm))).

(** The error state with the last error cleared. *)
Definition cleared (st : virThreadState) : virThreadState :=
  {| lastError := None; logged := logged st |}.


(** The number of huge pages a guest needs, in the words of the
    specification: the initial memory divided by the page size,
    rounded up. *)
Definition spec_pagesNeeded (initialMemory pageSize : Z) : Z :=
  (initialMemory + pageSize - 1) / pageSize.

(** The same definition with another memory configuration. *)
Definition set_mem (def : virDomainDef) (m : virDomainMemtune) : virDomainDef :=
  {| id := id def; name := name def; emulator := emulator def; os := os def;
     virtType := virtType def; cpu := cpu def; mem := m;
     vcpus := vcpus def; consoles := consoles def; serials := serials def;
     devices := devices def |}.

(** Two refreshes in succession, the second on the instance the first
    one left. *)
Definition refreshTwice `{X : Externals} (vm : virDomainObj)
  : M (Z * virDomainObj) :=
  r ← virCHDomainRefreshThreadInfo vm;
  virCHDomainRefreshThreadInfo (snd r).

(** The slot a reported vCPU thread is looked up at: its cpuid as the
    unsigned index [virDomainDefGetVcpu] receives. *)
Definition slotOf (vcpuInfo : virCHMonitorCPUInfo) : nat :=
  Z.to_nat (to_uint (cpuid vcpuInfo)).

(** The thread id the monitor reported last for slot [i], if it
    reported one. *)
Fixpoint lastReportedTid (info : list virCHMonitorThreadInfo) (i : nat)
  : option Z :=
  match info with
  | [] => None
  | virCHThreadTypeVcpu vcpuInfo :: rest =>
      match lastReportedTid rest i with
      | Some t => Some t
      | None =>
          if decide (slotOf vcpuInfo = i) then Some (cpu_tid vcpuInfo)
          else None
      end
  | _ :: rest => lastReportedTid rest i
  end.

(** Every vcpu-kind entry names one of the [n] declared slots. *)
Definition slotsDeclared (info : list virCHMonitorThreadInfo) (n : nat) : Prop :=
  Forall (fun e => match e with
                   | virCHThreadTypeVcpu vcpuInfo =>
                       to_uint (cpuid vcpuInfo) < Z.of_nat n
                   | _ => True
                   end) info.

(** The number of vcpu-kind entries. *)
Fixpoint vcpuThreadCount (info : list virCHMonitorThreadInfo) : Z :=
  match info with
  | [] => 0
  | virCHThreadTypeVcpu _ :: rest => vcpuThreadCount rest + 1
  | _ :: rest => vcpuThreadCount rest
  end.

(** What the reconciliation does to one slot. *)
Definition slotUpdate (info : list virCHMonitorThreadInfo) (i : nat)
  : virDomainVcpuDef -> virDomainVcpuDef :=
  match lastReportedTid info i with
  | Some t => fun vcpu => set_tid vcpu t
  | None => fun vcpu => vcpu
  end.

(** The thread list the monitor gives for an instance. *)
Definition threadInfoOf `{X : Externals} (vm : virDomainObj)
  : list virCHMonitorThreadInfo :=
  virCHMonitorGetThreadInfo (virCHDomainGetMonitor vm) true.

(** The state after one more warning in the log. *)
Definition warned (st : virThreadState) (msg : string) : virThreadState :=
  {| lastError := lastError st; logged := logged st ++ [(VIR_LOG_WARN, msg)] |}.

(** ** Vocabulary of the further properties *)

(** The conditions under which the huge-page admission lets a
    definition through, read off [virCHDomainDefValidateMemory]: no
    huge pages requested, or one size, shared pages left on, the size
    listed by the host, the free-page query answered, and the quotient
    of memory and page size not above the free pages. *)
Definition memoryAdmissible `{X : Externals} (def : virDomainDef)
    (caps : virCaps) : Prop :=
  hugepages (mem def) = []
  \/ exists hp page_free,
       hugepages (mem def) = [hp]
       /\ nosharepages (mem def) = false
       /\ size hp ∈ pagesSize (host caps)
       /\ size hp ≠ 0
       /\ virNumaGetPageInfo (-1) (size hp) 0 = inr page_free
       /\ initial_memory (mem def) / size hp <= page_free.

(** The entries the refresh loop does not skip. *)
Definition isVcpuThread (t : virCHMonitorThreadInfo) : bool :=
  match t with
  | virCHThreadTypeVcpu _ => true
  | _ => false
  end.

(** The state with [e] as the last error. *)
Definition failedWith (st : virThreadState) (e : virError) : virThreadState :=
  {| lastError := Some e; logged := logged st |}.

(** The same definition with another amount of initial memory. *)
Definition set_initial_memory (def : virDomainDef) (m : Z) : virDomainDef :=
  set_mem def {| initial_memory := m; hugepages := hugepages (mem def);
                 nosharepages := nosharepages (mem def) |}.

(** An answer of the monitor with two threads for slot 1 and none for
    slot 0, an instance with two slots, and the instance a refresh
    leaves: slot 1 holds the later thread id, slot 0 is as it was. *)
Definition refreshExampleThreads : list virCHMonitorThreadInfo :=
  [ virCHThreadTypeEmulator 4242;
    virCHThreadTypeVcpu {| cpuid := 1; cpu_tid := 4244 |};
    virCHThreadTypeVcpu {| cpuid := 1; cpu_tid := 4250 |} ].

Definition refreshExampleVm : virDomainObj :=
  exampleVm 4242 (exampleDef None [] 2 [] [] []).

Definition refreshExampleVmAfter : virDomainObj :=
  set_def refreshExampleVm
    (set_vcpus (def refreshExampleVm) [exampleVcpu 0; exampleVcpu 4250]).

(** An answer with one vcpu-kind thread for the same two-slot instance,
    the instance a refresh leaves, and the state with the warning the
    refresh logs about the count. *)
Definition mismatchExampleThreads : list virCHMonitorThreadInfo :=
  [ virCHThreadTypeEmulator 4242;
    virCHThreadTypeVcpu {| cpuid := 1; cpu_tid := 4244 |} ].

Definition mismatchExampleVmAfter : virDomainObj :=
  set_def refreshExampleVm
    (set_vcpus (def refreshExampleVm) [exampleVcpu 0; exampleVcpu 4244]).

Definition mismatchExampleState : virThreadState :=
  warned virThreadStateInit
    "Mismatch in the number of cpus, expected: 2, actual: 1".

(** * Properties *)

(** Unfolding the monad on a concrete state. *)
Ltac run :=
  cbv [mbind M_bind mret M_ret call crash virReportError virSetError
       virResetLastError virReportEnumRangeError VIR_WARN VIR_ERROR
       virLogMessage returnValue finalState reportedCode reportedMessage];
  simpl.

(** ** CPU-mode validation *)

Lemma chValidateDomainDef_passthrough def opaque c st :
  cpu def = Some c -> mode c = VIR_CPU_MODE_HOST_PASSTHROUGH ->
  chValidateDomainDef def opaque st = Returned st 0.
Proof.
  intros Hc Hm. unfold chValidateDomainDef. rewrite Hc.
  destruct (decide _) as [Hne|_]; [congruence|reflexivity].
Qed.

(** A rejected CPU mode is only logged: the return value is -1, the
    message goes to the log at error priority, and the thread's last
    error is left as it was. *)
Lemma chValidateDomainDef_other_mode def opaque c st :
  cpu def = Some c -> mode c ≠ VIR_CPU_MODE_HOST_PASSTHROUGH ->
  exists msg,
    chValidateDomainDef def opaque st
    = Returned {| lastError := lastError st;
                  logged := logged st ++ [(VIR_LOG_ERROR, msg)] |} (-1).
Proof.
  intros Hc Hm. unfold chValidateDomainDef. rewrite Hc.
  destruct (decide _) as [_|He]; [|contradiction].
  eexists. reflexivity.
Qed.

Lemma chValidateDomainDef_rejects_iff def opaque st :
  returnValue (chValidateDomainDef def opaque st) = Some (-1)
  <-> exists c, cpu def = Some c /\ mode c ≠ VIR_CPU_MODE_HOST_PASSTHROUGH.
Proof.
  unfold chValidateDomainDef. destruct (cpu def) as [c|] eqn:Hc.
  - destruct (decide _) as [Hne|He]; run.
    + split; [eauto|reflexivity].
    + split; [discriminate|]. intros (c' & [= <-] & Hm). contradiction.
  - run. split; [discriminate|]. intros (c' & [=] & _).
Qed.

(** C3, on the code: a definition whose CPU mode is custom is rejected
    with -1, but no error kind is raised for it; the message is written
    to the log only and the last error stays unset, where the claim
    asks for an error of kind ConfigInvalid. *)
Theorem chValidateDomainDef_custom_mode_no_error_kind :
  let def := exampleDef (Some {| mode := VIR_CPU_MODE_CUSTOM |}) [] 1 [] [] [] in
  let o := chValidateDomainDef def exampleDriver virThreadStateInit in
  returnValue o = Some (-1)
  /\ reportedCode o = None
  /\ (logged <$> finalState o)
     = Some [(VIR_LOG_ERROR,
              dquote +:+ "host-passthrough" +:+ dquote
              +:+ " is the only mode supported by CH driver")].
Proof. repeat split. Qed.

(** C10: a definition without any CPU configuration passes the
    CPU-mode validation, with nothing reported or logged. *)
Theorem chValidateDomainDef_cpu_absent def opaque st :
  cpu def = None ->
  chValidateDomainDef def opaque st = Returned st 0.
Proof. intros Hc. unfold chValidateDomainDef. rewrite Hc. reflexivity. Qed.

Lemma chValidateDomainDef_cpu_absent_witness :
  chValidateDomainDef (exampleDef None [] 1 [] [] []) exampleDriver
    virThreadStateInit
  = Returned virThreadStateInit 0.
Proof.
  apply (chValidateDomainDef_cpu_absent (exampleDef None [] 1 [] [] [])).
  reflexivity.
Defined.

(** ** Device validation *)

Lemma chrTypeUnsupported_single (c : virDomainChrDef) :
  chrTypeUnsupported [c] = false <-> spec_transportSupported c.
Proof.
  unfold chrTypeUnsupported, spec_transportSupported.
  destruct c as [[[]]]; simpl; split; intros H;
    first [reflexivity | discriminate | (left; reflexivity)
          | (right; reflexivity) | (destruct H; discriminate)].
Qed.

(** The four checks after the switch fail exactly when the
    specification's constraint is violated. *)
Lemma consoleSerial_checks def :
  spec_consoleSerialOk def
  <-> ¬ nconsoles def > 1 /\ ¬ nserials def > 1
      /\ chrTypeUnsupported (consoles def) = false
      /\ chrTypeUnsupported (serials def) = false.
Proof.
  unfold spec_consoleSerialOk, nconsoles, nserials.
  destruct (consoles def) as [|c [|c' cs]], (serials def) as [|s [|s' ss]];
    simpl length; rewrite ?Forall_app, ?Forall_singleton, ?Forall_nil;
    rewrite <- ?chrTypeUnsupported_single;
    try (split; [intros (? & ? & ?)|intros (? & ? & ? & ?)]; lia);
    simpl (chrTypeUnsupported []); intuition lia.
Qed.

Lemma spec_consoleSerialViolation_not_ok def :
  spec_consoleSerialViolation def <-> ¬ spec_consoleSerialOk def.
Proof.
  unfold spec_consoleSerialViolation, spec_consoleSerialOk. split.
  - intros [H|[H|H]] (H1 & H2 & H3); [lia|lia|].
    apply Exists_exists in H as (c & Hin & Hc).
    rewrite Forall_forall in H3. auto.
  - intros Hno.
    destruct (decide (1 < length (consoles def))%nat); [auto|].
    destruct (decide (1 < length (serials def))%nat); [auto|].
    right; right. apply not_Forall_Exists; [apply _|].
    intros HF. apply Hno. repeat split; [lia|lia|exact HF].
Qed.

(** Refuting a membership in an explicit list. *)
Ltac not_listed H :=
  repeat (apply elem_of_cons in H as [H|H]; [discriminate|]);
  apply elem_of_nil in H; exact H.

Section DeviceValidation.
Context `{X : Externals}.

Lemma chValidateDomainDeviceDef_allowed dev def st :
  dev_type dev ∈ spec_allow_list ->
  spec_consoleSerialOk def ->
  chValidateDomainDeviceDef dev def st = Returned st 0.
Proof.
  intros Hty Hok. apply consoleSerial_checks in Hok as (H1 & H2 & H3 & H4).
  unfold chValidateDomainDeviceDef.
  assert (Hafter :
    (if decide (nconsoles def > 1) then
       _ ← virReportError VIR_ERR_INTERNAL_ERROR
             "Only a single console can be configured for this domain";
       mret (-1)
     else if decide (nserials def > 1) then
       _ ← virReportError VIR_ERR_INTERNAL_ERROR
             "Only a single serial can be configured for this domain";
       mret (-1)
     else if chrTypeUnsupported (consoles def) then
       _ ← virReportError VIR_ERR_INTERNAL_ERROR
             "Console works only in UNIX / PTY modes";
       mret (-1)
     else if chrTypeUnsupported (serials def) then
       _ ← virReportError VIR_ERR_INTERNAL_ERROR
             "Serial works only in UNIX/PTY modes";
       mret (-1)
     else mret 0) st = Returned st 0).
  { rewrite !decide_False, H3, H4 by assumption. reflexivity. }
  unfold spec_allow_list in Hty.
  destruct (dev_type dev); try exact Hafter;
    exfalso; not_listed Hty.
Qed.

Lemma chValidateDomainDeviceDef_console_serial dev def st :
  dev_type dev ∈ spec_allow_list ->
  ¬ spec_consoleSerialOk def ->
  let o := chValidateDomainDeviceDef dev def st in
  returnValue o = Some (-1) /\ reportedCode o = Some VIR_ERR_INTERNAL_ERROR.
Proof.
  intros Hty Hbad. rewrite consoleSerial_checks in Hbad.
  unfold chValidateDomainDeviceDef.
  assert (Hafter : forall o : Outcome Z,
    o = (if decide (nconsoles def > 1) then
       _ ← virReportError VIR_ERR_INTERNAL_ERROR
             "Only a single console can be configured for this domain";
       mret (-1)
     else if decide (nserials def > 1) then
       _ ← virReportError VIR_ERR_INTERNAL_ERROR
             "Only a single serial can be configured for this domain";
       mret (-1)
     else if chrTypeUnsupported (consoles def) then
       _ ← virReportError VIR_ERR_INTERNAL_ERROR
             "Console works only in UNIX / PTY modes";
       mret (-1)
     else if chrTypeUnsupported (serials def) then
       _ ← virReportError VIR_ERR_INTERNAL_ERROR
             "Serial works only in UNIX/PTY modes";
       mret (-1)
     else mret 0) st ->
    returnValue o = Some (-1) /\ reportedCode o = Some VIR_ERR_INTERNAL_ERROR).
  { intros o ->.
    destruct (decide (nconsoles def > 1)); [split; reflexivity|].
    destruct (decide (nserials def > 1)); [split; reflexivity|].
    destruct (chrTypeUnsupported (consoles def)); [split; reflexivity|].
    destruct (chrTypeUnsupported (serials def)); [split; reflexivity|].
    exfalso. apply Hbad. auto. }
  unfold spec_allow_list in Hty.
  destruct (dev_type dev); try (apply Hafter; reflexivity);
    exfalso; not_listed Hty.
Qed.

(** The callback returns 0 or -1, and never crashes. *)
Lemma chValidateDomainDeviceDef_returns dev def st :
  let o := chValidateDomainDeviceDef dev def st in
  returnValue o = Some 0 \/ returnValue o = Some (-1).
Proof.
  unfold chValidateDomainDeviceDef.
  destruct (decide (nconsoles def > 1)), (decide (nserials def > 1)),
    (chrTypeUnsupported (consoles def)), (chrTypeUnsupported (serials def)),
    (dev_type dev); run; auto.
Qed.

Lemma chValidateDomainDeviceDef_device_types_accepts dev def st :
  returnValue (chValidateDomainDeviceDef dev def st) = Some 0 ->
  dev_type dev ∈ spec_allow_list /\ spec_consoleSerialOk def.
Proof.
  intros Hret.
  assert (Hty : dev_type dev ∈ spec_allow_list).
  { unfold chValidateDomainDeviceDef, spec_allow_list in *.
    destruct (dev_type dev);
      first [discriminate Hret
            | repeat first [apply list_elem_of_here
                           | apply list_elem_of_further] ]. }
  split; [exact Hty|].
  destruct (decide (spec_consoleSerialOk def)) as [Hok|Hbad]; [exact Hok|].
  destruct (chValidateDomainDeviceDef_console_serial dev def st Hty Hbad)
    as [Hr _].
  rewrite Hr in Hret. discriminate.
Qed.

(** C7, as amended: the callback returns success exactly for a device
    of an allow-listed type (in a definition that meets the console and
    serial constraint); a device of any other type is rejected, with
    ConfigUnsupported and a message that names the type when the type
    is a device type proper, and with InternalError when it is one of
    the two enumerators that name no device (none, and the end marker
    of the enumeration). *)
Theorem chValidateDomainDeviceDef_device_types dev def st :
  let o := chValidateDomainDeviceDef dev def st in
  (returnValue o = Some 0
   <-> dev_type dev ∈ spec_allow_list /\ spec_consoleSerialOk def)
  /\ (dev_type dev ∉ spec_allow_list -> ¬ placeholderType (dev_type dev) ->
      returnValue o = Some (-1)
      /\ reportedCode o = Some VIR_ERR_CONFIG_UNSUPPORTED
      /\ reportedMessage o
         = Some ("Cloud-Hypervisor doesn't support '"
                 +:+ virDomainDeviceTypeToString (dev_type dev)
                 +:+ "' device"))
  /\ (placeholderType (dev_type dev) ->
      returnValue o = Some (-1)
      /\ reportedCode o = Some VIR_ERR_INTERNAL_ERROR).
Proof.
  intros o. split; [|split].
  - split.
    + subst o. apply chValidateDomainDeviceDef_device_types_accepts.
    + intros [Hty Hok]. subst o.
      rewrite chValidateDomainDeviceDef_allowed; auto.
  - intros Hty Hph. subst o.
    unfold chValidateDomainDeviceDef, spec_allow_list, placeholderType in *.
    destruct (dev_type dev);
      first [ (repeat split; reflexivity)
            | (exfalso; apply Hph; auto; fail)
            | (exfalso; apply Hty;
               repeat first [apply list_elem_of_here
                            | apply list_elem_of_further]) ].
  - intros [Hph|Hph]; subst o; unfold chValidateDomainDeviceDef;
      rewrite Hph; split; reflexivity.
Qed.

(** The run of the callback over the declared devices of a definition
    whose devices are all of allow-listed types: it passes when the
    console and serial constraint holds, and fails with InternalError
    at the first device when it is violated. *)
Lemma validateDevices_console_serial devs def st :
  Forall (fun dev => dev_type dev ∈ spec_allow_list) devs ->
  (spec_consoleSerialOk def ->
   validateDevices chValidateDomainDeviceDef devs def st = Returned st 0)
  /\ (spec_consoleSerialViolation def -> devs ≠ [] ->
      let o := validateDevices chValidateDomainDeviceDef devs def st in
      returnValue o = Some (-1)
      /\ reportedCode o = Some VIR_ERR_INTERNAL_ERROR).
Proof.
  intros Hall. split.
  - intros Hok. induction Hall as [|dev rest Hty _ IH]; [reflexivity|].
    simpl. unfold mbind, M_bind.
    rewrite chValidateDomainDeviceDef_allowed by assumption.
    rewrite decide_False by lia. exact IH.
  - intros Hv Hne. destruct Hall as [|dev rest Hty _]; [contradiction|].
    apply spec_consoleSerialViolation_not_ok in Hv.
    destruct (chValidateDomainDeviceDef_console_serial dev def st Hty Hv)
      as [Hr Hc].
    simpl. unfold mbind, M_bind.
    destruct (chValidateDomainDeviceDef dev def st) as [st' r|];
      [|discriminate Hr].
    injection Hr as ->. rewrite decide_True by lia. split; [reflexivity|].
    exact Hc.
Qed.

(** C8: device validation fails whenever the definition declares more
    than one console or more than one serial, or a console or serial
    whose transport is neither a pseudo-terminal nor a UNIX socket,
    and the error is InternalError when the device being validated is
    of an allow-listed type (a console or serial is a character
    device); with at most one console and one serial, each on one of
    these two transports, the validation of such a device succeeds and
    reports nothing. *)
Theorem chValidateDomainDeviceDef_console_serial_rule dev def st :
  let o := chValidateDomainDeviceDef dev def st in
  (spec_consoleSerialViolation def -> returnValue o = Some (-1))
  /\ (dev_type dev ∈ spec_allow_list ->
      (spec_consoleSerialViolation def ->
       reportedCode o = Some VIR_ERR_INTERNAL_ERROR)
      /\ (spec_consoleSerialOk def -> o = Returned st 0)).
Proof.
  intros o. split.
  - intros Hv. apply spec_consoleSerialViolation_not_ok in Hv.
    destruct (chValidateDomainDeviceDef_returns dev def st) as [Hr|Hr];
      [|exact Hr].
    apply chValidateDomainDeviceDef_device_types_accepts in Hr.
    destruct Hr as [_ Hok]. contradiction.
  - intros Hty. split.
    + intros Hv. apply spec_consoleSerialViolation_not_ok in Hv.
      apply chValidateDomainDeviceDef_console_serial; assumption.
    + intros Hok. apply chValidateDomainDeviceDef_allowed; assumption.
Qed.

End DeviceValidation.

Lemma chValidateDomainDeviceDef_device_types_witness :
  let o := @chValidateDomainDeviceDef (exampleHost 0 [] [])
             {| dev_type := VIR_DOMAIN_DEVICE_SOUND |}
             (exampleDef None [] 1 [] []
                [ {| dev_type := VIR_DOMAIN_DEVICE_SOUND |} ])
             virThreadStateInit in
  returnValue o = Some (-1)
  /\ reportedCode o = Some VIR_ERR_CONFIG_UNSUPPORTED
  /\ reportedMessage o
     = Some "Cloud-Hypervisor doesn't support 'sound' device".
Proof.
  apply (proj1 (proj2
    (@chValidateDomainDeviceDef_device_types (exampleHost 0 [] [])
       {| dev_type := VIR_DOMAIN_DEVICE_SOUND |}
       (exampleDef None [] 1 [] [] [ {| dev_type := VIR_DOMAIN_DEVICE_SOUND |} ])
       virThreadStateInit))).
  - intros H. not_listed H.
  - intros [H|H]; discriminate H.
Defined.

(** C7 as stated fails on the zero enumerator: it is outside the
    allow-list, yet the error raised for it is InternalError, and the
    message is a fixed text. *)
Lemma chValidateDomainDeviceDef_none_internal_error :
  let o := @chValidateDomainDeviceDef (exampleHost 0 [] [])
             {| dev_type := VIR_DOMAIN_DEVICE_NONE |}
             (exampleDef None [] 1 [] []
                [ {| dev_type := VIR_DOMAIN_DEVICE_NONE |} ])
             virThreadStateInit in
  (VIR_DOMAIN_DEVICE_NONE ∉ spec_allow_list)
  /\ returnValue o = Some (-1)
  /\ reportedCode o = Some VIR_ERR_INTERNAL_ERROR
  /\ reportedCode o ≠ Some VIR_ERR_CONFIG_UNSUPPORTED
  /\ reportedMessage o = Some "unexpected VIR_DOMAIN_DEVICE_NONE".
Proof.
  repeat split; try reflexivity; try discriminate.
  intros H. not_listed H.
Qed.

Lemma chValidateDomainDeviceDef_console_serial_rule_witness :
  let chr := {| dev_type := VIR_DOMAIN_DEVICE_CHR |} in
  let two := exampleDef None [] 1 [pty; pty] [] [chr; chr] in
  let other := exampleDef None [] 1 [tcp] [] [chr] in
  let one := exampleDef None [] 1 [pty] [pty] [chr; chr] in
  let run := @chValidateDomainDeviceDef (exampleHost 0 [] []) chr in
  (returnValue (run two virThreadStateInit) = Some (-1)
   /\ reportedCode (run two virThreadStateInit) = Some VIR_ERR_INTERNAL_ERROR)
  /\ (returnValue (run other virThreadStateInit) = Some (-1)
      /\ reportedCode (run other virThreadStateInit)
         = Some VIR_ERR_INTERNAL_ERROR)
  /\ run one virThreadStateInit = Returned virThreadStateInit 0.
Proof.
  intros chr two other one run.
  assert (Hchr : dev_type chr ∈ spec_allow_list)
    by (repeat first [apply list_elem_of_here | apply list_elem_of_further]).
  assert (Htwo : spec_consoleSerialViolation two) by (left; simpl; lia).
  assert (Hother : spec_consoleSerialViolation other).
  { right; right. apply Exists_cons_hd. intros [H|H]; discriminate H. }
  assert (Hone : spec_consoleSerialOk one).
  { repeat split; simpl; try lia. repeat constructor. }
  pose proof (@chValidateDomainDeviceDef_console_serial_rule
                (exampleHost 0 [] []) chr two virThreadStateInit) as [A1 A2].
  pose proof (@chValidateDomainDeviceDef_console_serial_rule
                (exampleHost 0 [] []) chr other virThreadStateInit) as [B1 B2].
  pose proof (@chValidateDomainDeviceDef_console_serial_rule
                (exampleHost 0 [] []) chr one virThreadStateInit) as [_ C2].
  split; [|split].
  - split; [exact (A1 Htwo)|exact (proj1 (A2 Hchr) Htwo)].
  - split; [exact (B1 Hother)|exact (proj1 (B2 Hchr) Hother)].
  - exact (proj2 (C2 Hchr) Hone).
Defined.

(** ** Machine name *)

Section MachineName.
Context `{X : Externals}.

(** C9: the machine-name lookup always returns a name and leaves no
    error behind that it raised; when the instance has no process, or
    systemd has no machine for its process id, the name is the
    generated one (prefix, id, name, privilege flag), and the error of
    the failed systemd query is reset. *)
Theorem virCHDomainGetMachineName_fallback vm st :
  (exists st' machine,
      virCHDomainGetMachineName vm st = Returned st' machine
      /\ (st' = st \/ st' = cleared st))
  /\ (pid vm = 0 -> virCHDomainGetMachineName vm st = Returned st (fallbackName vm))
  /\ (pid vm ≠ 0 ->
      (exists e, virSystemdGetMachineNameByPID (pid vm) = inl e) ->
      virCHDomainGetMachineName vm st = Returned (cleared st) (fallbackName vm)).
Proof.
  unfold virCHDomainGetMachineName, fallbackName, cleared.
  destruct (decide (pid vm ≠ 0)) as [Hp|Hp].
  - run. destruct (virSystemdGetMachineNameByPID (pid vm)) as [e|machine];
      simpl; repeat split.
    + eexists _, _. split; [reflexivity|]. right; reflexivity.
    + intros H0. contradiction.
    + eexists _, _. split; [reflexivity|]. left; reflexivity.
    + intros H0. contradiction.
    + intros _ [e He]. discriminate He.
  - run. repeat split.
    + eexists _, _. split; [reflexivity|]. left; reflexivity.
    + intros H0 _. contradiction.
Qed.

End MachineName.

Lemma virCHDomainGetMachineName_fallback_witness :
  let known := [(4242, "ch-7-guest-known")] in
  let name_of := fun p =>
    @virCHDomainGetMachineName (exampleHost 0 [] known)
      (exampleVm p (exampleDef None [] 1 [] [] [])) virThreadStateInit in
  name_of 0 = Returned virThreadStateInit "ch-7-guest"
  /\ name_of 999 = Returned virThreadStateInit "ch-7-guest".
Proof.
  intros known name_of. split.
  - apply (proj1 (proj2
      (@virCHDomainGetMachineName_fallback (exampleHost 0 [] known)
         (exampleVm 0 (exampleDef None [] 1 [] [] [])) virThreadStateInit))).
    reflexivity.
  - apply (proj2 (proj2
      (@virCHDomainGetMachineName_fallback (exampleHost 0 [] known)
         (exampleVm 999 (exampleDef None [] 1 [] [] [])) virThreadStateInit))).
    + discriminate.
    + eexists. reflexivity.
Defined.

(** ** Huge-page admission *)

Lemma findPageSize_range hugepage_size pages i :
  i <= findPageSize hugepage_size pages i <= i + Z.of_nat (length pages).
Proof.
  revert i. induction pages as [|p rest IH]; intros i; simpl.
  - lia.
  - destruct (decide (hugepage_size = p)); [lia|].
    specialize (IH (i + 1)). lia.
Qed.

(** The search stops at the array length exactly when no entry equals
    the requested size. *)
Lemma findPageSize_not_found hugepage_size pages i :
  findPageSize hugepage_size pages i = i + Z.of_nat (length pages)
  <-> hugepage_size ∉ pages.
Proof.
  revert i. induction pages as [|p rest IH]; intros i; simpl.
  - split; [intros _; apply not_elem_of_nil|lia].
  - destruct (decide (hugepage_size = p)) as [->|Hne].
    + split; [lia|]. intros H. exfalso. apply H. apply list_elem_of_here.
    + rewrite not_elem_of_cons. rewrite <- (IH (i + 1)).
      split; [intros H; split; [assumption|lia]|intros [_ H]; lia].
Qed.

Section MemoryAdmission.
Context `{X : Externals}.

(** What the code does for a single supported page size with shared
    pages left on: the quotient of the division, rounded down, is
    compared with the free pages. *)
Lemma virCHDomainDefValidateMemory_single_size def caps hp page_free st :
  hugepages (mem def) = [hp] ->
  nosharepages (mem def) = false ->
  size hp ∈ pagesSize (host caps) ->
  size hp ≠ 0 ->
  virNumaGetPageInfo (-1) (size hp) 0 = inr page_free ->
  let o := virCHDomainDefValidateMemory def caps st in
  (initial_memory (mem def) / size hp > page_free ->
   returnValue o = Some (-1)
   /\ reportedCode o = Some VIR_ERR_CONFIG_UNSUPPORTED)
  /\ (initial_memory (mem def) / size hp <= page_free -> o = Returned st 0).
Proof.
  intros Hhp Hsh Hin Hnz Hfree o. subst o.
  unfold virCHDomainDefValidateMemory, nhugepages, nPagesSize,
    virDomainDefGetMemoryInitial.
  rewrite Hhp, Hsh. simpl length.
  destruct (decide (Z.of_nat 1 = 0)) as [?|_]; [lia|].
  destruct (decide (Z.of_nat 1 > 1)) as [?|_]; [lia|].
  destruct (decide (findPageSize (size hp) (pagesSize (host caps)) 0 = _))
    as [Hnf|_].
  { exfalso. change (Z.of_nat (length (pagesSize (host caps))))
      with (0 + Z.of_nat (length (pagesSize (host caps)))) in Hnf.
    apply findPageSize_not_found in Hnf. contradiction. }
  run. rewrite Hfree. simpl.
  destruct (decide (size hp = 0)) as [?|_]; [contradiction|].
  destruct (decide _) as [Hgt|Hle]; split; intros H;
    first [lia | reflexivity | (split; reflexivity)].
Qed.

(** Rounding down and rounding up give the same page count exactly when
    the memory is a whole number of pages; otherwise they differ by one. *)
Lemma spec_pagesNeeded_floor total pageSize :
  0 < pageSize ->
  spec_pagesNeeded total pageSize
  = total / pageSize + (if decide (total mod pageSize = 0) then 0 else 1).
Proof.
  intros Hpos. unfold spec_pagesNeeded.
  pose proof (Z.div_mod total pageSize ltac:(lia)) as Hdm.
  pose proof (Z.mod_pos_bound total pageSize Hpos) as Hb.
  destruct (decide (total mod pageSize = 0)) as [Hz|Hnz].
  - symmetry. rewrite Z.add_0_r.
    apply (Z.div_unique _ _ _ (pageSize - 1)); lia.
  - symmetry.
    apply (Z.div_unique _ _ _ (total mod pageSize - 1)); lia.
Qed.

Lemma parserConfig_domainValidateCallback :
  domainValidateCallback virCHDriverDomainDefParserConfig
  = Some chValidateDomainDef.
Proof. reflexivity. Qed.

Lemma validateDevices_set_mem devs def m st :
  validateDevices chValidateDomainDeviceDef devs (set_mem def m) st
  = validateDevices chValidateDomainDeviceDef devs def st.
Proof.
  revert st. induction devs as [|dev rest IH]; intros st; [reflexivity|].
  simpl. unfold mbind, M_bind.
  change (chValidateDomainDeviceDef dev (set_mem def m) st)
    with (chValidateDomainDeviceDef dev def st).
  destruct (chValidateDomainDeviceDef dev def st) as [st' r|]; [|reflexivity].
  destruct (decide (r < 0)); [reflexivity|apply IH].
Qed.

(** The registered callbacks never read the memory configuration: the
    verdict of the pipeline, and what it reports, is the same whatever
    huge pages the definition asks for. *)
Lemma runValidationPipeline_ignores_mem def m opaque st :
  let o := runValidationPipeline virCHDriverDomainDefParserConfig
             def opaque st in
  let o' := runValidationPipeline virCHDriverDomainDefParserConfig
              (set_mem def m) opaque st in
  fst <$> returnValue o' = fst <$> returnValue o
  /\ finalState o' = finalState o.
Proof.
  unfold runValidationPipeline. simpl.
  unfold virCHDomainDefPostParseBasic, virCHDomainDefPostParse,
    chValidateDomainDef.
  simpl. destruct (emulator def) as [e|].
  - run. destruct (virCHDriverGetCapabilities opaque false) as [?|caps];
      simpl; [split; reflexivity|].
    destruct (virCapabilitiesDomainSupported _ _ _ _); simpl;
      [split; reflexivity|].
    destruct (cpu def) as [c|]; [destruct (decide _)|]; simpl;
      try (split; reflexivity);
      rewrite (validateDevices_set_mem (devices def) def m);
      destruct (validateDevices _ _ _ _) as [st' r|]; simpl;
      try (split; reflexivity); destruct (decide (r < 0)); split; reflexivity.
  - destruct (g_find_program_in_path CH_CMD) as [path|]; run;
      [|split; reflexivity].
    destruct (virCHDriverGetCapabilities opaque false) as [?|caps];
      simpl; [split; reflexivity|].
    destruct (virCapabilitiesDomainSupported _ _ _ _); simpl;
      [split; reflexivity|].
    destruct (cpu def) as [c|]; [destruct (decide _)|]; simpl;
      try (split; reflexivity);
      change (set_emulator (set_mem def m) (Some path))
        with (set_mem (set_emulator def (Some path)) m);
      rewrite (validateDevices_set_mem (devices def) _ m);
      destruct (validateDevices _ _ _ _) as [st' r|]; simpl;
      try (split; reflexivity); destruct (decide (r < 0)); split; reflexivity.
Qed.

End MemoryAdmission.

(** C2, on the code: on a host with 97 free pages of 2097152 bytes, a
    guest with 204800000 bytes of memory needs 98 pages when the
    quotient is rounded up, one more than are free, so admission should
    fail with ConfigUnsupported; the code divides rounding down, finds
    97 pages needed, and admits the guest. *)
Theorem virCHDomainDefValidateMemory_rounds_down :
  let def := exampleDef None [2097152] 1 [] [] [] in
  let caps := {| host := {| pagesSize := [4096; 2097152] |} |} in
  let o := @virCHDomainDefValidateMemory (exampleHost 97 [] []) def caps
             virThreadStateInit in
  spec_pagesNeeded (virDomainDefGetMemoryInitial def) 2097152 = 98
  /\ virDomainDefGetMemoryInitial def / 2097152 = 97
  /\ o = Returned virThreadStateInit 0.
Proof. repeat split. Qed.

(** The example of the specification: with 100 free pages the same
    guest is admitted, and it still is with exactly 97. *)
Example virCHDomainDefValidateMemory_spec_example :
  let def := exampleDef None [2097152] 1 [] [] [] in
  let caps := {| host := {| pagesSize := [4096; 2097152] |} |} in
  @virCHDomainDefValidateMemory (exampleHost 100 [] []) def caps
    virThreadStateInit
  = Returned virThreadStateInit 0
  /\ returnValue (@virCHDomainDefValidateMemory (exampleHost 96 [] []) def caps
                    virThreadStateInit)
     = Some (-1).
Proof. split; reflexivity. Qed.

(** C1, on the code: the table names the domain validation member
    twice, so the CPU-mode check replaces the memory check and no
    member holds [virCHDomainDefValidate].  A guest that asks for
    2097152-byte huge pages on a host with none free is rejected by
    the memory check when that is called, and admitted by the run of
    the registered callbacks. *)
Theorem parserConfig_memory_validation_overwritten :
  let H := exampleHost 0 [] [] in
  let def := exampleDef None [2097152] 1 [] [] [] in
  let admission := @virCHDomainDefValidate H def exampleDriver
                     virThreadStateInit in
  let pipeline := runValidationPipeline
                    (@virCHDriverDomainDefParserConfig H) def exampleDriver
                    virThreadStateInit in
  domainValidateCallback (@virCHDriverDomainDefParserConfig H)
  = Some chValidateDomainDef
  /\ returnValue admission = Some (-1)
  /\ reportedCode admission = Some VIR_ERR_CONFIG_UNSUPPORTED
  /\ pipeline = Returned virThreadStateInit (0, def).
Proof. repeat split. Qed.

(** ** Thread-info refresh *)

Lemma to_uint_range z : 0 <= to_uint z < 2 ^ 32.
Proof. unfold to_uint. apply Z.mod_pos_bound. lia. Qed.

Lemma virDomainDefGetVcpu_declared def vcpu :
  to_uint vcpu < Z.of_nat (length (vcpus def)) ->
  exists v, virDomainDefGetVcpu def vcpu = Some v
            /\ vcpus def !! Z.to_nat (to_uint vcpu) = Some v.
Proof.
  intros Hlt. unfold virDomainDefGetVcpu.
  rewrite decide_False by lia.
  pose proof (to_uint_range vcpu).
  destruct (lookup_lt_is_Some_2 (vcpus def) (Z.to_nat (to_uint vcpu)))
    as [v Hv]; [lia|].
  exists v. rewrite Hv. auto.
Qed.

Lemma virDomainDefGetVcpu_undeclared def vcpu :
  Z.of_nat (length (vcpus def)) <= to_uint vcpu ->
  virDomainDefGetVcpu def vcpu = None.
Proof.
  intros Hge. unfold virDomainDefGetVcpu. rewrite decide_True by lia.
  reflexivity.
Qed.

Lemma slotUpdate_idemp info i v :
  slotUpdate info i (slotUpdate info i v) = slotUpdate info i v.
Proof. unfold slotUpdate. destruct (lastReportedTid info i); reflexivity. Qed.

Lemma set_vcpus_same def : set_vcpus def (vcpus def) = def.
Proof. destruct def; reflexivity. Qed.

(** The loop, summarised: it crashes exactly when some vcpu-kind entry
    names a slot that is not declared; otherwise it reports and logs
    nothing, keeps the number of slots, leaves in each slot the last
    thread id reported for it (or what was there), and counts the
    vcpu-kind entries. *)
Lemma refreshThreads_summary info : forall def ncpus st,
  match refreshThreads info def ncpus st with
  | Returned st' (def', ncpus') =>
      st' = st
      /\ slotsDeclared info (length (vcpus def))
      /\ def' = set_vcpus def (vcpus def')
      /\ length (vcpus def') = length (vcpus def)
      /\ (forall i, vcpus def' !! i = slotUpdate info i <$> vcpus def !! i)
      /\ (0 <= ncpus < 2 ^ 64 ->
          ncpus' = to_size_t (ncpus + vcpuThreadCount info))
  | Crashed f =>
      f = NullDereference /\ ¬ slotsDeclared info (length (vcpus def))
  end.
Proof.
  induction info as [|e rest IH]; intros def ncpus st.
  - simpl. repeat split.
    + constructor.
    + symmetry. apply set_vcpus_same.
    + intros i. unfold slotUpdate. simpl. destruct (vcpus def !! i); reflexivity.
    + intros Hn. unfold to_size_t. rewrite Z.add_0_r, Z.mod_small; lia.
  - assert (Hskip : forall o : Outcome (virDomainDef * Z),
        o = refreshThreads rest def ncpus st ->
        (match e with virCHThreadTypeVcpu _ => False | _ => True end) ->
        match o with
        | Returned st' (def', ncpus') =>
            st' = st
            /\ slotsDeclared (e :: rest) (length (vcpus def))
            /\ def' = set_vcpus def (vcpus def')
            /\ length (vcpus def') = length (vcpus def)
            /\ (forall i, vcpus def' !! i
                          = slotUpdate (e :: rest) i <$> vcpus def !! i)
            /\ (0 <= ncpus < 2 ^ 64 ->
                ncpus' = to_size_t (ncpus + vcpuThreadCount (e :: rest)))
        | Crashed f =>
            f = NullDereference
            /\ ¬ slotsDeclared (e :: rest) (length (vcpus def))
        end).
    { intros o -> He. specialize (IH def ncpus st).
      destruct (refreshThreads rest def ncpus st) as [st' [def' n']|f].
      - destruct IH as (H1 & H2 & H3 & H4 & H5 & H6).
        repeat split; auto.
        + constructor; [destruct e; tauto|exact H2].
        + intros i. rewrite H5. unfold slotUpdate.
          destruct e; simpl; tauto || reflexivity.
        + intros Hn. rewrite (H6 Hn). destruct e; simpl; tauto || reflexivity.
      - destruct IH as [H1 H2]. split; [exact H1|].
        intros H. apply H2. apply Forall_cons in H. tauto. }
    destruct e as [t|ci|t]; simpl; try (apply Hskip; [reflexivity|exact I]).
    clear Hskip.
    destruct (decide (to_uint (cpuid ci) < Z.of_nat (length (vcpus def))))
      as [Hlt|Hge].
    + destruct (virDomainDefGetVcpu_declared def (cpuid ci) Hlt)
        as (v & -> & Hv).
      specialize (IH (set_vcpus def
                        (<[Z.to_nat (to_uint (cpuid ci)) :=
                             set_tid v (cpu_tid ci)]> (vcpus def)))
                     (to_size_t (ncpus + 1)) st).
      destruct (refreshThreads rest _ _ st) as [st' [def' n']|f].
      * destruct IH as (H1 & H2 & H3 & H4 & H5 & H6).
        simpl in H2, H4, H5. rewrite length_insert in H2, H4.
        repeat split; auto.
        -- constructor; assumption.
        -- intros i. rewrite H5. unfold slotUpdate. simpl.
           fold (slotOf ci).
           destruct (decide (slotOf ci = i)) as [<-|Hne].
           ++ unfold slotOf. rewrite list_lookup_insert_eq, Hv
                by (apply lookup_lt_is_Some; eauto).
              simpl. destruct (lastReportedTid rest _); reflexivity.
           ++ unfold slotOf in Hne. rewrite list_lookup_insert_ne by exact Hne.
              destruct (lastReportedTid rest i); reflexivity.
        -- intros Hn. rewrite H6.
           ++ unfold to_size_t. rewrite Zplus_mod_idemp_l. f_equal. lia.
           ++ unfold to_size_t. apply Z.mod_pos_bound. lia.
      * destruct IH as [H1 H2]. split; [exact H1|].
        intros H. apply H2. simpl. rewrite length_insert.
        apply Forall_cons in H. tauto.
    + rewrite virDomainDefGetVcpu_undeclared by lia.
      split; [reflexivity|]. intros H. apply Forall_cons in H. tauto.
Qed.

Section Refresh.
Context `{X : Externals}.

(** One refresh, summarised. *)
Lemma virCHDomainRefreshThreadInfo_summary vm st :
  let info := threadInfoOf vm in
  let slots := vcpus (def vm) in
  match virCHDomainRefreshThreadInfo vm st with
  | Returned st' (r, vm') =>
      r = 0
      /\ slotsDeclared info (length slots)
      /\ (exists def', vm' = set_def vm def'
                       /\ def' = set_vcpus (def vm) (vcpus def'))
      /\ length (vcpus (def vm')) = length slots
      /\ (forall i, vcpus (def vm') !! i = slotUpdate info i <$> slots !! i)
      /\ (to_size_t (vcpuThreadCount info) = virDomainDefGetVcpusMax (def vm)
          -> st' = st)
      /\ (to_size_t (vcpuThreadCount info) ≠ virDomainDefGetVcpusMax (def vm)
          -> exists msg, st' = warned st msg)
  | Crashed f =>
      f = NullDereference /\ ¬ slotsDeclared info (length slots)
  end.
Proof.
  intros info slots. unfold virCHDomainRefreshThreadInfo.
  fold (threadInfoOf vm). fold info. cbv [mbind M_bind].
  pose proof (refreshThreads_summary info (def vm) 0 st) as Hs.
  destruct (refreshThreads info (def vm) 0 st) as [st' [def' n']|f];
    [|exact Hs].
  destruct Hs as (-> & H2 & H3 & H4 & H5 & H6).
  rewrite H6 by lia. simpl in *.
  destruct (decide _) as [Hne|Heq]; run;
    repeat split; eauto;
    first [ (intros; contradiction) | (intros _; eexists; reflexivity) ].
Qed.

Lemma virCHDomainRefreshThreadInfo_declared vm st :
  slotsDeclared (threadInfoOf vm) (length (vcpus (def vm))) ->
  exists st' vm',
    virCHDomainRefreshThreadInfo vm st = Returned st' (0, vm')
    /\ lastError st' = lastError st
    /\ (forall i, vcpus (def vm') !! i
                  = slotUpdate (threadInfoOf vm) i <$> vcpus (def vm) !! i).
Proof.
  intros Hd. pose proof (virCHDomainRefreshThreadInfo_summary vm st) as Hs.
  simpl in Hs.
  destruct (virCHDomainRefreshThreadInfo vm st) as [st' [r vm']|f].
  - destruct Hs as (-> & _ & _ & _ & H5 & H6 & H7).
    exists st', vm'. repeat split; [|exact H5].
    destruct (decide (to_size_t (vcpuThreadCount (threadInfoOf vm))
                      = virDomainDefGetVcpusMax (def vm))) as [He|Hne].
    + rewrite (H6 He). reflexivity.
    + destruct (H7 Hne) as [msg ->]. reflexivity.
  - destruct Hs as [_ Hn]. contradiction.
Qed.

(** A slot for which the monitor reported no thread keeps what it held. *)
Lemma virCHDomainRefreshThreadInfo_unreported vm st st' r vm' i :
  virCHDomainRefreshThreadInfo vm st = Returned st' (r, vm') ->
  lastReportedTid (threadInfoOf vm) i = None ->
  vcpus (def vm') !! i = vcpus (def vm) !! i.
Proof.
  intros Hr Hnone.
  pose proof (virCHDomainRefreshThreadInfo_summary vm st) as Hs.
  simpl in Hs. rewrite Hr in Hs. destruct Hs as (_ & _ & _ & _ & H5 & _).
  rewrite H5. unfold slotUpdate. rewrite Hnone.
  destruct (vcpus (def vm) !! i); reflexivity.
Qed.

Lemma virCHDomainRefreshThreadInfo_undeclared vm st :
  ¬ slotsDeclared (threadInfoOf vm) (length (vcpus (def vm))) ->
  virCHDomainRefreshThreadInfo vm st = Crashed NullDereference.
Proof.
  intros Hd. pose proof (virCHDomainRefreshThreadInfo_summary vm st) as Hs.
  simpl in Hs.
  destruct (virCHDomainRefreshThreadInfo vm st) as [st' [r vm']|f].
  - destruct Hs as (_ & H & _). contradiction.
  - destruct Hs as [-> _]. reflexivity.
Qed.

Lemma refreshTwice_same_instance vm st :
  snd <$> returnValue (refreshTwice vm st)
  = snd <$> returnValue (virCHDomainRefreshThreadInfo vm st).
Proof.
  unfold refreshTwice. cbv [mbind M_bind].
  pose proof (virCHDomainRefreshThreadInfo_summary vm st) as H1.
  simpl in H1.
  destruct (virCHDomainRefreshThreadInfo vm st) as [st1 [r1 vm1]|f1];
    [|reflexivity].
  destruct H1 as (_ & Hd1 & (def1 & -> & Hdef1) & Hlen1 & Hlk1 & _).
  simpl in *.
  pose proof (virCHDomainRefreshThreadInfo_summary (set_def vm def1) st1) as H2.
  simpl in H2. change (threadInfoOf (set_def vm def1)) with (threadInfoOf vm) in H2.
  destruct (virCHDomainRefreshThreadInfo (set_def vm def1) st1)
    as [st2 [r2 vm2]|f2].
  - destruct H2 as (_ & _ & (def2 & -> & Hdef2) & Hlen2 & Hlk2 & _).
    simpl in *. do 2 f_equal.
    assert (Hvs : vcpus def2 = vcpus def1).
    { apply list_eq. intros i. rewrite Hlk2, Hlk1.
      destruct (vcpus (def vm) !! i) as [v|]; simpl; [|reflexivity].
      rewrite slotUpdate_idemp. reflexivity. }
    rewrite Hdef2, Hvs. apply set_vcpus_same.
  - destruct H2 as [_ Hn]. rewrite Hlen1 in Hn. contradiction.
Qed.

(** C6: refreshing twice in succession, with the monitor reporting the
    same threads, leaves the instance, and so the thread id of every
    vCPU slot, as one refresh leaves it. *)
Theorem virCHDomainRefreshThreadInfo_idempotent vm st :
  snd <$> returnValue (refreshTwice vm st)
  = snd <$> returnValue (virCHDomainRefreshThreadInfo vm st)
  /\ (fun r => vcpuTids (def (snd r))) <$> returnValue (refreshTwice vm st)
     = (fun r => vcpuTids (def (snd r)))
         <$> returnValue (virCHDomainRefreshThreadInfo vm st).
Proof.
  pose proof (refreshTwice_same_instance vm st) as H. split; [exact H|].
  destruct (returnValue (refreshTwice vm st)) as [[r2 vm2]|],
    (returnValue (virCHDomainRefreshThreadInfo vm st)) as [[r1 vm1]|];
    simpl in *; try discriminate; [|reflexivity].
  injection H as ->. reflexivity.
Qed.

End Refresh.

(** With fewer vcpu-kind threads than slots the refresh returns 0 and
    the mismatch is a warning in the log; the slot without a thread
    keeps its value. *)
Example virCHDomainRefreshThreadInfo_fewer_threads :
  let threads := [ virCHThreadTypeEmulator 4242;
                   virCHThreadTypeVcpu {| cpuid := 1; cpu_tid := 4244 |} ] in
  let vm := exampleVm 4242 (exampleDef None [] 2 [] [] []) in
  let o := @virCHDomainRefreshThreadInfo (exampleHost 0 threads []) vm
             virThreadStateInit in
  (fst <$> returnValue o) = Some 0
  /\ ((fun r => vcpuTids (def (snd r))) <$> returnValue o) = Some [0; 4244]
  /\ reportedCode o = None
  /\ (logged <$> finalState o)
     = Some [(VIR_LOG_WARN,
              "Mismatch in the number of cpus, expected: 2, actual: 1")].
Proof. repeat split. Qed.

(** C4, on the code: the monitor reports a vcpu-kind thread with
    logical index 5 for an instance that declares one vCPU slot; the
    lookup yields no slot, and the refresh writes the thread id through
    it without a check, which is a null dereference, where the claim
    asks for the entry to be passed over with every slot unchanged. *)
Theorem virCHDomainRefreshThreadInfo_undeclared_slot :
  let threads := [ virCHThreadTypeVcpu {| cpuid := 5; cpu_tid := 4711 |} ] in
  let vm := exampleVm 4242 (exampleDef None [] 1 [] [] []) in
  virDomainDefGetVcpu (def vm) 5 = None
  /\ @virCHDomainRefreshThreadInfo (exampleHost 0 threads []) vm
       virThreadStateInit
     = Crashed NullDereference.
Proof. split; reflexivity. Qed.

(** C5, on the code: the monitor reports three vcpu-kind threads for an
    instance whose maximum vCPU count is two; instead of returning
    success with a warning about the mismatch, the refresh stops on the
    null dereference at the third thread and returns nothing. *)
Theorem virCHDomainRefreshThreadInfo_more_threads_than_slots :
  let threads := [ virCHThreadTypeEmulator 4242;
                   virCHThreadTypeVcpu {| cpuid := 0; cpu_tid := 4243 |};
                   virCHThreadTypeVcpu {| cpuid := 1; cpu_tid := 4244 |};
                   virCHThreadTypeVcpu {| cpuid := 2; cpu_tid := 4245 |} ] in
  let vm := exampleVm 4242 (exampleDef None [] 2 [] [] []) in
  let o := @virCHDomainRefreshThreadInfo (exampleHost 0 threads []) vm
             virThreadStateInit in
  vcpuThreadCount threads = 3
  /\ virDomainDefGetVcpusMax (def vm) = 2
  /\ o = Crashed NullDereference
  /\ returnValue o = None
  /\ finalState o = None.
Proof. repeat split. Qed.

(** * Further properties of the code *)

(** ** The page-size search and the huge-page admission *)

Lemma findPageSize_scan hugepage_size pages : forall i0,
  let i := findPageSize hugepage_size pages i0 in
  (forall j, (j < Z.to_nat (i - i0))%nat -> pages !! j ≠ Some hugepage_size)
  /\ (i < i0 + Z.of_nat (length pages) ->
      pages !! Z.to_nat (i - i0) = Some hugepage_size).
Proof.
  induction pages as [|p rest IH]; intros i0; simpl.
  - split; [intros j Hj; lia|lia].
  - destruct (decide (hugepage_size = p)) as [->|Hne].
    + rewrite Z.sub_diag. simpl. split; [intros j Hj; lia|reflexivity].
    + destruct (IH (i0 + 1)) as [Hbefore Hat].
      pose proof (findPageSize_range hugepage_size rest (i0 + 1)) as Hr.
      set (i := findPageSize hugepage_size rest (i0 + 1)) in *.
      replace (Z.to_nat (i - i0)) with (S (Z.to_nat (i - (i0 + 1)))) by lia.
      split.
      * intros [|j] Hj; simpl; [congruence|]. apply Hbefore. lia.
      * intros Hlt. simpl. apply Hat. lia.
Qed.

(** X1: the search loop over the host's page sizes stops at the first
    index that holds the requested size: no earlier entry equals it,
    the entry at the index does, and the index is the array length
    exactly when no entry equals it. *)
Theorem findPageSize_first_match hugepage_size pages :
  let i := findPageSize hugepage_size pages 0 in
  0 <= i <= Z.of_nat (length pages)
  /\ (forall j, (j < Z.to_nat i)%nat -> pages !! j ≠ Some hugepage_size)
  /\ (i < Z.of_nat (length pages) ->
      pages !! Z.to_nat i = Some hugepage_size)
  /\ (i = Z.of_nat (length pages) <-> hugepage_size ∉ pages).
Proof.
  intros i. subst i.
  pose proof (findPageSize_range hugepage_size pages 0) as Hr.
  destruct (findPageSize_scan hugepage_size pages 0) as [Hbefore Hat].
  simpl in Hbefore, Hat. rewrite Z.sub_0_r in Hbefore, Hat.
  repeat split; try lia; try assumption.
  - intros H. apply (findPageSize_not_found hugepage_size pages 0). lia.
  - intros H. apply (findPageSize_not_found hugepage_size pages 0) in H. lia.
Qed.

Lemma findPageSize_first_match_witness :
  findPageSize 2097152 [4096; 2097152; 1073741824; 2097152] 0 = 1
  /\ [4096; 2097152; 1073741824; 2097152] !! 0%nat ≠ Some 2097152
  /\ [4096; 2097152; 1073741824; 2097152] !! 1%nat = Some 2097152.
Proof.
  pose proof (findPageSize_first_match 2097152
                [4096; 2097152; 1073741824; 2097152]) as (_ & Hb & Ha & _).
  split; [reflexivity|]. split.
  - apply (Hb 0%nat). vm_compute. lia.
  - apply Ha. vm_compute. reflexivity.
Defined.

(** Settling the [decide]s of the goal that linear arithmetic settles. *)
Ltac decide_lia :=
  repeat match goal with
         | |- context [decide ?P] =>
             first [ rewrite (decide_True (P:=P)) by lia
                   | rewrite (decide_False (P:=P)) by lia ]
         end.

Section MemoryAdmissionOutcomes.
Context `{X : Externals}.

(** Every way the admission can end. *)
Lemma virCHDomainDefValidateMemory_outcomes def caps st :
  match virCHDomainDefValidateMemory def caps st with
  | Returned st' r =>
      (r = 0 /\ st' = st /\ memoryAdmissible def caps)
      \/ (r = -1 /\ ¬ memoryAdmissible def caps
          /\ ((exists msg,
                 st' = failedWith st (mkError VIR_ERR_CONFIG_UNSUPPORTED msg))
              \/ (exists hp e,
                    hugepages (mem def) = [hp]
                    /\ virNumaGetPageInfo (-1) (size hp) 0 = inl e
                    /\ st' = failedWith st e)))
  | Crashed f =>
      f = DivisionByZero
      /\ exists hp, hugepages (mem def) = [hp] /\ size hp = 0
                    /\ 0 ∈ pagesSize (host caps)
  end.
Proof.
  unfold virCHDomainDefValidateMemory, memoryAdmissible, nhugepages,
    nPagesSize, virDomainDefGetMemoryInitial, failedWith.
  destruct (hugepages (mem def)) as [|hp [|hp2 rest]] eqn:Hhp; cbn [length].
  - decide_lia. left. auto.
  - decide_lia.
    destruct (nosharepages (mem def)) eqn:Hsh.
    { run. right. repeat split; [|left; eauto].
      intros [H|(hp' & f & _ & H & _)]; discriminate H. }
    pose proof (findPageSize_not_found (size hp) (pagesSize (host caps)) 0)
      as Hfind. rewrite Z.add_0_l in Hfind.
    destruct (decide (findPageSize (size hp) (pagesSize (host caps)) 0 = _))
      as [Hnf|Hf].
    { run. right. repeat split; [|left; eauto].
      apply Hfind in Hnf.
      intros [H|(hp' & f & [= <-] & _ & H & _)]; [discriminate H|].
      contradiction. }
    assert (Hin : size hp ∈ pagesSize (host caps)).
    { destruct (decide (size hp ∈ pagesSize (host caps))) as [H|H];
        [exact H|]. apply Hfind in H. contradiction. }
    run. destruct (virNumaGetPageInfo (-1) (size hp) 0) as [e|page_free] eqn:Ho;
      simpl.
    { right. repeat split; [|right; eauto].
      intros [H|(hp' & f & [= <-] & _ & _ & _ & H & _)]; [discriminate H|].
      rewrite Ho in H. discriminate H. }
    destruct (decide (size hp = 0)) as [Hz|Hnz].
    { split; [reflexivity|]. exists hp. rewrite <- Hz. auto. }
    destruct (decide (initial_memory (mem def) / size hp > page_free))
      as [Hgt|Hle]; simpl.
    + right. repeat split; [|left; eauto].
      intros [H|(hp' & f & [= <-] & _ & _ & _ & H & Hq)]; [discriminate H|].
      rewrite Ho in H. injection H as <-. lia.
    + left. repeat split. right. exists hp, page_free.
      repeat split; auto; lia.
  - decide_lia.
    run. right. repeat split; [|left; eauto].
    intros [H|(hp' & f & H & _)]; discriminate H.
Qed.

(** X2: the huge-page admission returns success exactly when the
    definition requests no huge pages, or requests one size that is
    nonzero and listed by the host, leaves shared pages on, the
    free-page query succeeds, and the memory divided by the page size
    (rounded down) does not exceed the free pages. *)
Theorem virCHDomainDefValidateMemory_success_iff def caps st :
  returnValue (virCHDomainDefValidateMemory def caps st) = Some 0
  <-> memoryAdmissible def caps.
Proof.
  pose proof (virCHDomainDefValidateMemory_outcomes def caps st) as H.
  destruct (virCHDomainDefValidateMemory def caps st) as [st' r|f]; simpl.
  - destruct H as [(-> & _ & Ha)|(-> & Hn & _)].
    + split; auto.
    + split; [discriminate|contradiction].
  - destruct H as (_ & hp & Hhp & Hz & _). split; [discriminate|].
    intros [H|(hp' & fr & H & _ & _ & Hnz & _)]; rewrite Hhp in H;
      [discriminate H|]. injection H as <-. contradiction.
Qed.

(** X3: the admission never fails silently and never with an internal
    error: a return of -1 leaves as last error either ConfigUnsupported
    or the error the free-page query reported, the log is never
    written, a return of 0 leaves the error state untouched, and the
    only other way out is a division by a page size of zero. *)
Theorem virCHDomainDefValidateMemory_failure_kinds def caps st :
  match virCHDomainDefValidateMemory def caps st with
  | Returned st' r =>
      logged st' = logged st
      /\ ((r = 0 /\ st' = st)
          \/ (r = -1
              /\ (err_code <$> lastError st' = Some VIR_ERR_CONFIG_UNSUPPORTED
                  \/ exists hp e,
                       hugepages (mem def) = [hp]
                       /\ virNumaGetPageInfo (-1) (size hp) 0 = inl e
                       /\ lastError st' = Some e)))
  | Crashed f =>
      f = DivisionByZero /\ (size <$> hugepages (mem def)) = [0]
  end.
Proof.
  pose proof (virCHDomainDefValidateMemory_outcomes def caps st) as H.
  destruct (virCHDomainDefValidateMemory def caps st) as [st' r|f].
  - destruct H as [(-> & -> & _)|(-> & _ & [[msg ->]|(hp & e & Hhp & Ho & ->)])].
    + split; [reflexivity|]. left. auto.
    + split; [reflexivity|]. right. split; [reflexivity|]. left. reflexivity.
    + split; [reflexivity|]. right. split; [reflexivity|]. right. eauto.
  - destruct H as (-> & hp & -> & Hz & _). simpl. rewrite Hz. auto.
Qed.

End MemoryAdmissionOutcomes.

(** X4: for a definition that requests no huge pages, or more than one
    size, the verdict does not depend on the host at all: capabilities,
    free pages and the rest of the environment may differ, the outcome
    is the same, and it is success exactly when no huge pages are
    requested. *)
Theorem virCHDomainDefValidateMemory_host_independent
    (X X' : Externals) def caps caps' st :
  length (hugepages (mem def)) ≠ 1%nat ->
  @virCHDomainDefValidateMemory X def caps st
  = @virCHDomainDefValidateMemory X' def caps' st
  /\ (returnValue (@virCHDomainDefValidateMemory X def caps st) = Some 0
      <-> hugepages (mem def) = []).
Proof.
  intros Hn. unfold virCHDomainDefValidateMemory, nhugepages.
  destruct (hugepages (mem def)) as [|hp [|hp2 rest]]; cbn [length] in *.
  - decide_lia. split; [reflexivity|]. split; reflexivity.
  - contradiction.
  - decide_lia. split; [reflexivity|]. run. split; discriminate.
Qed.

Lemma virCHDomainDefValidateMemory_host_independent_witness :
  let def := exampleDef None [2097152; 1073741824] 1 [] [] [] in
  let caps := {| host := {| pagesSize := [4096; 2097152] |} |} in
  let caps' := {| host := {| pagesSize := [] |} |} in
  @virCHDomainDefValidateMemory (exampleHost 0 [] []) def caps
    virThreadStateInit
  = @virCHDomainDefValidateMemory (exampleHost 1000000 [] []) def caps'
      virThreadStateInit.
Proof.
  intros def caps caps'.
  apply (virCHDomainDefValidateMemory_host_independent
           (exampleHost 0 [] []) (exampleHost 1000000 [] []) def caps caps'
           virThreadStateInit).
  simpl. lia.
Defined.

Lemma virCHDomainDefValidateMemory_admits `{X : Externals} def caps st :
  virCHDomainDefValidateMemory def caps st = Returned st 0
  <-> memoryAdmissible def caps.
Proof.
  pose proof (virCHDomainDefValidateMemory_outcomes def caps st) as H.
  destruct (virCHDomainDefValidateMemory def caps st) as [st' r|f].
  - destruct H as [(-> & -> & Ha)|(-> & Hn & _)].
    + split; auto.
    + split; [discriminate|contradiction].
  - destruct H as (_ & hp & Hhp & Hz & _). split; [discriminate|].
    intros [H|(hp' & fr & H & _ & _ & Hnz & _)]; rewrite Hhp in H;
      [discriminate H|]. injection H as <-. contradiction.
Qed.

(** X5: admission is monotone: a definition admitted on one host is
    admitted, with the same capabilities, on any host that reports at
    least as many free pages for every page size, and stays admitted
    when its initial memory is lowered. *)
Theorem virCHDomainDefValidateMemory_monotone
    (X X' : Externals) def caps st m' :
  (forall hp, hp ∈ hugepages (mem def) -> 0 <= size hp) ->
  (forall s page_free,
      @virNumaGetPageInfo X (-1) s 0 = inr page_free ->
      exists page_free',
        @virNumaGetPageInfo X' (-1) s 0 = inr page_free'
        /\ page_free <= page_free') ->
  m' <= initial_memory (mem def) ->
  @virCHDomainDefValidateMemory X def caps st = Returned st 0 ->
  @virCHDomainDefValidateMemory X' (set_initial_memory def m') caps st
  = Returned st 0.
Proof.
  intros Hpos Hfree Hm Hadm.
  apply virCHDomainDefValidateMemory_admits in Hadm.
  apply virCHDomainDefValidateMemory_admits.
  destruct Hadm as [Hnil|(hp & f & Hhp & Hsh & Hin & Hnz & Ho & Hq)].
  - left. exact Hnil.
  - right. destruct (Hfree _ _ Ho) as (f' & Ho' & Hle).
    exists hp, f'. simpl. repeat split; auto.
    assert (0 <= size hp) by (apply Hpos; rewrite Hhp; apply list_elem_of_here).
    pose proof (Z.div_le_mono m' (initial_memory (mem def)) (size hp)
                  ltac:(lia) Hm).
    lia.
Qed.

Lemma virCHDomainDefValidateMemory_monotone_witness :
  let def := exampleDef None [2097152] 1 [] [] [] in
  let caps := {| host := {| pagesSize := [4096; 2097152] |} |} in
  @virCHDomainDefValidateMemory (exampleHost 120 [] [])
    (set_initial_memory def 104857600) caps virThreadStateInit
  = Returned virThreadStateInit 0.
Proof.
  intros def caps.
  apply (virCHDomainDefValidateMemory_monotone
           (exampleHost 100 [] []) (exampleHost 120 [] []) def caps
           virThreadStateInit 104857600).
  - intros hp Hin. apply list_elem_of_singleton in Hin. subst hp. simpl. lia.
  - intros s f [= <-]. exists 120. split; [reflexivity|lia].
  - simpl. lia.
  - reflexivity.
Defined.

Section ValidateWrapper.
Context `{X : Externals}.

(** X6: the domain validation callback for memory is the huge-page
    admission whenever the capabilities can be had, with the same
    return value and the same error left behind; when they cannot, it
    fails with the error of the capability query whatever the
    definition asks for, a definition without huge pages included. *)
Theorem virCHDomainDefValidate_wraps_admission def opaque st :
  (forall caps, virCHDriverGetCapabilities opaque false = inr caps ->
     virCHDomainDefValidate def opaque st
     = virCHDomainDefValidateMemory def caps st)
  /\ (forall e, virCHDriverGetCapabilities opaque false = inl e ->
        virCHDomainDefValidate def opaque st
        = Returned (failedWith st e) (-1)).
Proof.
  unfold virCHDomainDefValidate. split.
  - intros caps ->. run.
    pose proof (virCHDomainDefValidateMemory_outcomes def caps st) as H.
    destruct (virCHDomainDefValidateMemory def caps st) as [st' r|f];
      [|reflexivity].
    destruct H as [(-> & _)|(-> & _)]; reflexivity.
  - intros e ->. reflexivity.
Qed.

(** X7: the basic post-parse callback changes at most the emulator
    path.  It returns 0, reporting nothing, with an emulator set, and
    running it again on the result changes nothing; or it returns 1
    with ConfigUnsupported, which happens only when the definition has
    no emulator and the default binary is not in the search path, and
    then the definition is as it was. *)
Theorem virCHDomainDefPostParseBasic_result def opaque st :
  exists st' ret def',
    virCHDomainDefPostParseBasic def opaque st = Returned st' (ret, def')
    /\ def' = set_emulator def (emulator def')
    /\ ((ret = 0 /\ st' = st /\ is_Some (emulator def')
         /\ (is_Some (emulator def) -> def' = def)
         /\ virCHDomainDefPostParseBasic def' opaque st'
            = Returned st' (0, def'))
        \/ (ret = 1 /\ def' = def /\ emulator def = None
            /\ g_find_program_in_path CH_CMD = None
            /\ logged st' = logged st
            /\ err_code <$> lastError st' = Some VIR_ERR_CONFIG_UNSUPPORTED)).
Proof.
  unfold virCHDomainDefPostParseBasic.
  destruct (emulator def) as [e|] eqn:He.
  - exists st, 0, def. rewrite He. repeat split.
    + destruct def; unfold set_emulator; simpl in *; congruence.
    + left. repeat split; eauto.
  - destruct (g_find_program_in_path CH_CMD) as [path|] eqn:Hp.
    + exists st, 0, (set_emulator def (Some path)). repeat split.
      left. repeat split; eauto. intros [? [=]].
    + eexists _, 1, (set_emulator def None). run. repeat split.
      right. repeat split; auto.
      destruct def; unfold set_emulator; simpl in *; congruence.
Qed.

(** X9: the verdict on a device of an allow-listed type does not
    depend on the device: it is the verdict of the console and serial
    checks on the definition, the same for every such device. *)
Theorem chValidateDomainDeviceDef_same_for_allowed dev dev' def st :
  dev_type dev ∈ spec_allow_list ->
  dev_type dev' ∈ spec_allow_list ->
  chValidateDomainDeviceDef dev def st = chValidateDomainDeviceDef dev' def st.
Proof.
  intros H H'. unfold chValidateDomainDeviceDef, spec_allow_list in *.
  destruct (dev_type dev); try (exfalso; not_listed H);
    destruct (dev_type dev'); try (exfalso; not_listed H'); reflexivity.
Qed.

(** X10: device validation always returns, with 0 or -1, and never
    writes to the log; a return of 0 leaves the error state untouched,
    and a return of -1 always comes with a reported error, of kind
    ConfigUnsupported or InternalError. *)
Theorem chValidateDomainDeviceDef_failure_reported dev def st :
  exists st' r,
    chValidateDomainDeviceDef dev def st = Returned st' r
    /\ logged st' = logged st
    /\ ((r = 0 /\ st' = st)
        \/ (r = -1
            /\ (err_code <$> lastError st' = Some VIR_ERR_CONFIG_UNSUPPORTED
                \/ err_code <$> lastError st'
                   = Some VIR_ERR_INTERNAL_ERROR))).
Proof.
  unfold chValidateDomainDeviceDef.
  destruct (decide (nconsoles def > 1)), (decide (nserials def > 1)),
    (chrTypeUnsupported (consoles def)), (chrTypeUnsupported (serials def)),
    (dev_type dev); run; eexists _, _; (split; [reflexivity|]);
    (split; [reflexivity|]); simpl; auto.
Qed.

End ValidateWrapper.

Lemma virCHDomainDefPostParseBasic_result_witness :
  let bare := set_emulator (exampleDef None [] 1 [] [] []) None in
  let found := set_emulator bare (Some "/usr/bin/cloud-hypervisor") in
  @virCHDomainDefPostParseBasic (exampleHost 0 [] []) bare exampleDriver
    virThreadStateInit
  = Returned virThreadStateInit (0, found)
  /\ @virCHDomainDefPostParseBasic (exampleHost 0 [] []) found exampleDriver
       virThreadStateInit
     = Returned virThreadStateInit (0, found).
Proof.
  intros bare found.
  destruct (@virCHDomainDefPostParseBasic_result (exampleHost 0 [] []) bare
              exampleDriver virThreadStateInit)
    as (st' & ret & def' & Hrun & _ & [(_ & _ & _ & _ & Hagain)|(_ & _ & _ & Hp & _)]).
  - change (@virCHDomainDefPostParseBasic (exampleHost 0 [] []) bare
              exampleDriver virThreadStateInit)
      with (Returned virThreadStateInit (0, found)) in Hrun.
    injection Hrun as <- <- <-. split; [reflexivity|exact Hagain].
  - discriminate Hp.
Defined.

Lemma chValidateDomainDeviceDef_same_for_allowed_witness :
  let def := exampleDef None [] 1 [tcp] [] [] in
  @chValidateDomainDeviceDef (exampleHost 0 [] [])
    {| dev_type := VIR_DOMAIN_DEVICE_DISK |} def virThreadStateInit
  = @chValidateDomainDeviceDef (exampleHost 0 [] [])
      {| dev_type := VIR_DOMAIN_DEVICE_VSOCK |} def virThreadStateInit.
Proof.
  intros def.
  apply (@chValidateDomainDeviceDef_same_for_allowed (exampleHost 0 [] [])).
  - simpl. repeat first [apply list_elem_of_here | apply list_elem_of_further].
  - simpl. repeat first [apply list_elem_of_here | apply list_elem_of_further].
Defined.

Lemma virCHDomainDefValidate_wraps_admission_witness :
  let def := exampleDef None [2097152] 1 [] [] [] in
  @virCHDomainDefValidate (exampleHost 97 [] []) def exampleDriver
    virThreadStateInit
  = @virCHDomainDefValidateMemory (exampleHost 97 [] []) def
      {| host := {| pagesSize := [4096; 2097152] |} |} virThreadStateInit.
Proof.
  intros def.
  apply (proj1 (@virCHDomainDefValidate_wraps_admission (exampleHost 97 [] [])
                  def exampleDriver virThreadStateInit)).
  reflexivity.
Defined.

(** ** The thread-info refresh and the vCPU accessors *)

Lemma vcpuThreadCount_nonneg info : 0 <= vcpuThreadCount info.
Proof. induction info as [|[] rest IH]; simpl; lia. Qed.

Lemma vcpuTids_lookup def i :
  vcpuTids def !! i = (fun v => tid (privateData v)) <$> vcpus def !! i.
Proof. unfold vcpuTids. apply list_lookup_fmap. Qed.

Section RefreshFurther.
Context `{X : Externals}.

(** X11: the refresh returns, and then with 0, exactly when every
    vcpu-kind thread of the monitor's answer names a declared vCPU
    slot; in every other case it stops on a null dereference. *)
Theorem virCHDomainRefreshThreadInfo_returns_iff vm st :
  ((exists st' vm',
      virCHDomainRefreshThreadInfo vm st = Returned st' (0, vm'))
   <-> slotsDeclared (threadInfoOf vm) (length (vcpus (def vm))))
  /\ (virCHDomainRefreshThreadInfo vm st = Crashed NullDereference
      <-> ¬ slotsDeclared (threadInfoOf vm) (length (vcpus (def vm)))).
Proof.
  pose proof (virCHDomainRefreshThreadInfo_summary vm st) as Hs. simpl in Hs.
  destruct (virCHDomainRefreshThreadInfo vm st) as [st' [r vm']|f].
  - destruct Hs as (-> & Hd & _). split; split; eauto.
    + discriminate.
    + contradiction.
  - destruct Hs as [-> Hn]. split; split; auto.
    + intros (st' & vm' & [=]).
    + contradiction.
Qed.

(** X12: a refresh that returns changes nothing of the instance but
    thread ids: process id, persistence, private data and every field
    of the definition other than the vCPU slots are kept, the slots
    keep their number and their online flags, and each slot holds the
    thread id the monitor reported last for it, or the one it held
    when the monitor reported none. *)
Theorem virCHDomainRefreshThreadInfo_writes_only_tids vm st st' r vm' :
  virCHDomainRefreshThreadInfo vm st = Returned st' (r, vm') ->
  vm' = set_def vm (set_vcpus (def vm) (vcpus (def vm')))
  /\ online <$> vcpus (def vm') = online <$> vcpus (def vm)
  /\ (forall i v,
        vcpus (def vm) !! i = Some v ->
        vcpuTids (def vm') !! i
        = Some (default (tid (privateData v))
                  (lastReportedTid (threadInfoOf vm) i))).
Proof.
  intros Hr.
  pose proof (virCHDomainRefreshThreadInfo_summary vm st) as Hs. simpl in Hs.
  rewrite Hr in Hs.
  destruct Hs as (_ & _ & (def' & -> & Hdef') & Hlen & Hlk & _).
  simpl in *. repeat split.
  - rewrite Hdef' at 1. reflexivity.
  - apply list_eq. intros i. rewrite !list_lookup_fmap, Hlk.
    unfold slotUpdate.
    destruct (vcpus (def vm) !! i) as [v|]; [|reflexivity].
    destruct (lastReportedTid (threadInfoOf vm) i); reflexivity.
  - intros i v Hv. rewrite vcpuTids_lookup, Hlk, Hv. unfold slotUpdate.
    destruct (lastReportedTid (threadInfoOf vm) i); reflexivity.
Qed.

(** X13: a refresh that returns never touches the last error, and for
    counts within the range of their C types it writes to the log
    exactly when the number of vcpu-kind threads differs from the
    number of vCPU slots: one warning is appended then, and the state
    is untouched otherwise.  The count is of threads, not of slots
    filled. *)
Theorem virCHDomainRefreshThreadInfo_warns_iff_mismatch vm st st' r vm' :
  virCHDomainRefreshThreadInfo vm st = Returned st' (r, vm') ->
  Z.of_nat (length (vcpus (def vm))) < 2 ^ 32 ->
  vcpuThreadCount (threadInfoOf vm) < 2 ^ 64 ->
  r = 0
  /\ lastError st' = lastError st
  /\ (vcpuThreadCount (threadInfoOf vm) = Z.of_nat (length (vcpus (def vm)))
      -> st' = st)
  /\ (vcpuThreadCount (threadInfoOf vm) ≠ Z.of_nat (length (vcpus (def vm)))
      -> exists msg, st' = warned st msg).
Proof.
  intros Hr Hlen Hcount.
  pose proof (virCHDomainRefreshThreadInfo_summary vm st) as Hs. simpl in Hs.
  rewrite Hr in Hs. destruct Hs as (-> & _ & _ & _ & _ & Heq & Hne).
  pose proof (vcpuThreadCount_nonneg (threadInfoOf vm)) as Hnn.
  unfold to_size_t, virDomainDefGetVcpusMax, to_uint in Heq, Hne.
  rewrite !Z.mod_small in Heq, Hne by lia.
  destruct (decide (vcpuThreadCount (threadInfoOf vm)
                    = Z.of_nat (length (vcpus (def vm))))) as [He|Hn].
  - rewrite (Heq He). repeat split; auto. intros H. contradiction.
  - destruct (Hne Hn) as [msg ->].
    split; [reflexivity|]. split; [reflexivity|]. split.
    + intros H. contradiction.
    + intros _. exists msg. reflexivity.
Qed.

(** X14: threads that are not of vcpu kind are skipped: the loop over
    a thread list does what it does over the list with only the
    vcpu-kind entries left. *)
Theorem refreshThreads_skips_other_threads info def ncpus st :
  refreshThreads (List.filter isVcpuThread info) def ncpus st
  = refreshThreads info def ncpus st.
Proof.
  revert def ncpus. induction info as [|[t|ci|t] rest IH]; intros def ncpus;
    simpl; auto.
  destruct (virDomainDefGetVcpu def (cpuid ci)); [apply IH|reflexivity].
Qed.

(** X15: the loop works through the thread list in order: over two
    lists one after the other it is the loop over the first followed
    by the loop over the second, started from the definition and the
    counter the first one left. *)
Theorem refreshThreads_app info1 info2 def ncpus st :
  refreshThreads (info1 ++ info2) def ncpus st
  = (r ← refreshThreads info1 def ncpus;
     refreshThreads info2 (fst r) (snd r)) st.
Proof.
  revert def ncpus. induction info1 as [|[t|ci|t] rest IH]; intros def ncpus;
    simpl; auto.
  destruct (virDomainDefGetVcpu def (cpuid ci)); [apply IH|reflexivity].
Qed.

(** X17: the thread id accessor reads the slot at the given index when
    the index is below the number of declared slots, reporting and
    logging nothing; for any other index the lookup has no slot and
    the read is a null dereference. *)
Theorem virCHDomainGetVcpuPid_bounds vm vcpuid st :
  (to_uint vcpuid < Z.of_nat (length (vcpus (def vm))) ->
   exists v, vcpus (def vm) !! Z.to_nat (to_uint vcpuid) = Some v
             /\ virCHDomainGetVcpuPid vm vcpuid st
                = Returned st (tid (privateData v)))
  /\ (Z.of_nat (length (vcpus (def vm))) <= to_uint vcpuid ->
      virCHDomainGetVcpuPid vm vcpuid st = Crashed NullDereference).
Proof.
  unfold virCHDomainGetVcpuPid. split.
  - intros Hlt.
    destruct (virDomainDefGetVcpu_declared (def vm) vcpuid Hlt)
      as (v & -> & Hv). eauto.
  - intros Hge. rewrite virDomainDefGetVcpu_undeclared by exact Hge.
    reflexivity.
Qed.

(** X16: what the refresh writes, the accessor reads back: after a
    refresh that returns, the thread id of a declared slot is the one
    the monitor reported last for that slot, and the one read before
    the refresh when the monitor reported none for it. *)
Theorem virCHDomainGetVcpuPid_after_refresh vm st st' r vm' vcpuid st2 :
  virCHDomainRefreshThreadInfo vm st = Returned st' (r, vm') ->
  to_uint vcpuid < Z.of_nat (length (vcpus (def vm))) ->
  exists before,
    virCHDomainGetVcpuPid vm vcpuid st2 = Returned st2 before
    /\ virCHDomainGetVcpuPid vm' vcpuid st2
       = Returned st2
           (default before
              (lastReportedTid (threadInfoOf vm)
                 (Z.to_nat (to_uint vcpuid)))).
Proof.
  intros Hr Hlt.
  pose proof (virCHDomainRefreshThreadInfo_summary vm st) as Hs. simpl in Hs.
  rewrite Hr in Hs. destruct Hs as (_ & _ & _ & Hlen & Hlk & _).
  unfold virCHDomainGetVcpuPid.
  destruct (virDomainDefGetVcpu_declared (def vm) vcpuid Hlt)
    as (v & -> & Hv).
  rewrite <- Hlen in Hlt.
  destruct (virDomainDefGetVcpu_declared (def vm') vcpuid Hlt)
    as (v' & -> & Hv').
  exists (tid (privateData v)). split; [reflexivity|].
  rewrite Hlk, Hv in Hv'. simpl in Hv'. injection Hv' as <-.
  unfold slotUpdate.
  destruct (lastReportedTid (threadInfoOf vm) _); reflexivity.
Qed.

End RefreshFurther.

Lemma to_uint_small z : 0 <= z < 2 ^ 32 -> to_uint z = z.
Proof. intros H. unfold to_uint. apply Z.mod_small. exact H. Qed.

Lemma virDomainDefGetVcpusMax_range def :
  0 <= virDomainDefGetVcpusMax def < 2 ^ 32
  /\ virDomainDefGetVcpusMax def <= Z.of_nat (length (vcpus def)).
Proof.
  unfold virDomainDefGetVcpusMax. split; [apply to_uint_range|].
  unfold to_uint. apply Z.mod_le; lia.
Qed.

(** The loop from index [i] with [k] iterations left, all within the
    declared slots: it returns whether one of the slots [i .. i+k-1]
    has a positive thread id. *)
Lemma hasVcpuPidsFrom_scan def : forall k i st,
  0 <= i ->
  i + Z.of_nat k <= Z.of_nat (length (vcpus def)) ->
  i + Z.of_nat k <= 2 ^ 32 ->
  exists b,
    hasVcpuPidsFrom def k i st = Returned st b
    /\ (b = true
        <-> exists j v, i <= j < i + Z.of_nat k
                        /\ vcpus def !! Z.to_nat j = Some v
                        /\ tid (privateData v) > 0).
Proof.
  induction k as [|k IH]; intros i st Hi Hlen Hmax; simpl.
  - exists false. split; [reflexivity|]. split; [discriminate|].
    intros (j & v & Hj & _). lia.
  - assert (Hlt : to_uint i < Z.of_nat (length (vcpus def)))
      by (rewrite to_uint_small; lia).
    destruct (virDomainDefGetVcpu_declared def i Hlt) as (v & -> & Hv).
    rewrite to_uint_small in Hv by lia.
    destruct (decide (tid (privateData v) > 0)) as [Hpos|Hnpos].
    + exists true. split; [reflexivity|]. split; [|reflexivity].
      intros _. exists i, v. repeat split; auto; lia.
    + destruct (IH (i + 1) st) as (b & Hrun & Hb); [lia..|].
      exists b. split; [exact Hrun|]. rewrite Hb. split.
      * intros (j & w & Hj & Hw & Hp). exists j, w. repeat split; auto; lia.
      * intros (j & w & Hj & Hw & Hp).
        destruct (decide (j = i)) as [->|Hne].
        -- rewrite Hv in Hw. injection Hw as <-. contradiction.
        -- exists j, w. repeat split; auto; lia.
Qed.

Lemma virCHDomainHasVcpuPids_slots vm st :
  exists b,
    virCHDomainHasVcpuPids vm st = Returned st b
    /\ (b = true
        <-> exists j v, 0 <= j < virDomainDefGetVcpusMax (def vm)
                        /\ vcpus (def vm) !! Z.to_nat j = Some v
                        /\ tid (privateData v) > 0).
Proof.
  unfold virCHDomainHasVcpuPids.
  destruct (virDomainDefGetVcpusMax_range (def vm)) as [Hr Hle].
  destruct (hasVcpuPidsFrom_scan (def vm)
              (Z.to_nat (virDomainDefGetVcpusMax (def vm))) 0 st)
    as (b & Hrun & Hb); [lia..|].
  exists b. split; [exact Hrun|]. rewrite Hb.
  rewrite Z.add_0_l, Z2Nat.id by lia. reflexivity.
Qed.

(** X18: the test for known thread ids always returns, reporting and
    logging nothing, and answers true exactly when the thread id
    accessor gives a positive thread id for some index below the
    maximum vCPU count. *)
Theorem virCHDomainHasVcpuPids_iff_some_pid vm st :
  exists b,
    virCHDomainHasVcpuPids vm st = Returned st b
    /\ (b = true
        <-> exists vcpuid t,
              0 <= vcpuid < virDomainDefGetVcpusMax (def vm)
              /\ virCHDomainGetVcpuPid vm vcpuid st = Returned st t
              /\ t > 0).
Proof.
  destruct (virCHDomainHasVcpuPids_slots vm st) as (b & Hrun & Hb).
  destruct (virDomainDefGetVcpusMax_range (def vm)) as [Hr Hle].
  exists b. split; [exact Hrun|]. rewrite Hb.
  assert (Hget : forall j, 0 <= j < virDomainDefGetVcpusMax (def vm) ->
            exists v, vcpus (def vm) !! Z.to_nat j = Some v
                      /\ virCHDomainGetVcpuPid vm j st
                         = Returned st (tid (privateData v))).
  { intros j Hj. unfold virCHDomainGetVcpuPid.
    assert (Hlt : to_uint j < Z.of_nat (length (vcpus (def vm))))
      by (rewrite to_uint_small; lia).
    destruct (virDomainDefGetVcpu_declared (def vm) j Hlt) as (v & -> & Hv).
    rewrite to_uint_small in Hv by lia. eauto. }
  split.
  - intros (j & v & Hj & Hv & Hp). destruct (Hget j Hj) as (v' & Hv' & Hg).
    rewrite Hv in Hv'. injection Hv' as <-. eauto.
  - intros (j & t & Hj & Hg & Hp). destruct (Hget j Hj) as (v & Hv & Hg').
    rewrite Hg in Hg'. injection Hg' as ->. eauto.
Qed.

(** X19: once a refresh has returned after the monitor reported a
    positive thread id for a declared slot as the last one for it, the
    test for known thread ids answers true. *)
Theorem virCHDomainHasVcpuPids_after_refresh `{X : Externals}
    vm st st' r vm' i t st2 :
  virCHDomainRefreshThreadInfo vm st = Returned st' (r, vm') ->
  Z.of_nat (length (vcpus (def vm))) < 2 ^ 32 ->
  (i < length (vcpus (def vm)))%nat ->
  lastReportedTid (threadInfoOf vm) i = Some t ->
  t > 0 ->
  virCHDomainHasVcpuPids vm' st2 = Returned st2 true.
Proof.
  intros Hr Hmax Hi Hlast Hpos.
  pose proof (virCHDomainRefreshThreadInfo_summary vm st) as Hs. simpl in Hs.
  rewrite Hr in Hs. destruct Hs as (_ & _ & _ & Hlen & Hlk & _).
  destruct (virCHDomainHasVcpuPids_slots vm' st2) as (b & -> & Hb).
  f_equal. apply Hb.
  destruct (lookup_lt_is_Some_2 (vcpus (def vm)) i Hi) as [v Hv].
  exists (Z.of_nat i), (set_tid v t). repeat split.
  - lia.
  - unfold virDomainDefGetVcpusMax. rewrite Hlen, to_uint_small; lia.
  - rewrite Nat2Z.id, Hlk, Hv. unfold slotUpdate. rewrite Hlast. reflexivity.
  - exact Hpos.
Qed.

Lemma refreshExample_run :
  @virCHDomainRefreshThreadInfo (exampleHost 0 refreshExampleThreads [])
    refreshExampleVm virThreadStateInit
  = Returned virThreadStateInit (0, refreshExampleVmAfter).
Proof. reflexivity. Qed.

Lemma virCHDomainRefreshThreadInfo_writes_only_tids_witness :
  vcpuTids (def refreshExampleVmAfter) !! 1%nat = Some 4250
  /\ vcpuTids (def refreshExampleVmAfter) !! 0%nat = Some 0.
Proof.
  pose proof (@virCHDomainRefreshThreadInfo_writes_only_tids
                (exampleHost 0 refreshExampleThreads [])
                refreshExampleVm virThreadStateInit virThreadStateInit 0
                refreshExampleVmAfter eq_refl) as (_ & _ & H).
  split.
  - exact (H 1%nat (exampleVcpu 0) eq_refl).
  - exact (H 0%nat (exampleVcpu 0) eq_refl).
Defined.

Lemma virCHDomainRefreshThreadInfo_warns_iff_mismatch_witness :
  vcpuThreadCount mismatchExampleThreads = 1
  /\ exists msg, mismatchExampleState = warned virThreadStateInit msg.
Proof.
  pose proof (@virCHDomainRefreshThreadInfo_warns_iff_mismatch
                (exampleHost 0 mismatchExampleThreads [])
                refreshExampleVm virThreadStateInit mismatchExampleState 0
                mismatchExampleVmAfter eq_refl) as H.
  split; [reflexivity|].
  apply H; vm_compute; first [reflexivity | discriminate].
Defined.

Lemma virCHDomainGetVcpuPid_bounds_witness :
  virCHDomainGetVcpuPid refreshExampleVmAfter 1 virThreadStateInit
  = Returned virThreadStateInit 4250
  /\ virCHDomainGetVcpuPid refreshExampleVmAfter 2 virThreadStateInit
     = Crashed NullDereference.
Proof.
  pose proof (virCHDomainGetVcpuPid_bounds refreshExampleVmAfter 1
                virThreadStateInit) as [Hin _].
  pose proof (virCHDomainGetVcpuPid_bounds refreshExampleVmAfter 2
                virThreadStateInit) as [_ Hout].
  split.
  - destruct Hin as (v & Hv & Hrun); [vm_compute; reflexivity|].
    injection Hv as <-. exact Hrun.
  - apply Hout. vm_compute. discriminate.
Defined.

Lemma virCHDomainGetVcpuPid_after_refresh_witness :
  virCHDomainGetVcpuPid refreshExampleVm 1 virThreadStateInit
  = Returned virThreadStateInit 0
  /\ virCHDomainGetVcpuPid refreshExampleVmAfter 1 virThreadStateInit
     = Returned virThreadStateInit 4250.
Proof.
  destruct (@virCHDomainGetVcpuPid_after_refresh
              (exampleHost 0 refreshExampleThreads [])
              refreshExampleVm virThreadStateInit virThreadStateInit 0
              refreshExampleVmAfter 1 virThreadStateInit eq_refl)
    as (before & Hb & Ha); [vm_compute; reflexivity|].
  injection Hb as <-. split; [reflexivity|exact Ha].
Defined.

Lemma virCHDomainHasVcpuPids_after_refresh_witness :
  virCHDomainHasVcpuPids refreshExampleVmAfter virThreadStateInit
  = Returned virThreadStateInit true.
Proof.
  apply (@virCHDomainHasVcpuPids_after_refresh
           (exampleHost 0 refreshExampleThreads [])
           refreshExampleVm virThreadStateInit virThreadStateInit 0
           refreshExampleVmAfter 1%nat 4250 virThreadStateInit eq_refl).
  - vm_compute. reflexivity.
  - simpl. lia.
  - reflexivity.
  - lia.
Defined.

(** X8: the CPU-mode validation returns -1 exactly for a definition
    whose CPU configuration is present with a mode other than
    host-passthrough, and 0 for every other definition; it never sets
    or clears the last error: a rejection adds one message at error
    priority to the log and nothing else, an acceptance leaves the
    state as it was. *)
Theorem chValidateDomainDef_verdict def opaque st :
  exists st' r,
    chValidateDomainDef def opaque st = Returned st' r
    /\ lastError st' = lastError st
    /\ (r = -1 <-> exists c, cpu def = Some c
                              /\ mode c ≠ VIR_CPU_MODE_HOST_PASSTHROUGH)
    /\ ((r = 0 /\ st' = st)
        \/ (r = -1
            /\ exists msg,
                 st' = {| lastError := lastError st;
                          logged := (logged st ++ [(VIR_LOG_ERROR, msg)])%list |})).
Proof.
  unfold chValidateDomainDef. destruct (cpu def) as [c|] eqn:Hc.
  - destruct (decide (mode c ≠ VIR_CPU_MODE_HOST_PASSTHROUGH)) as [Hne|He].
    + run. eexists _, (-1). repeat split; eauto.
    + eexists st, 0. repeat split; auto.
      * intros [=].
      * intros (c' & [= <-] & Hm). contradiction.
  - eexists st, 0. repeat split; auto.
    + intros [=].
    + intros (c' & [=] & _).
Qed.
